(** * CFO Pluggy API (src/main.py): a shallow embedding

    The FastAPI service relays the Pluggy open-banking API.  This file embeds
    - the JSON values the code reads (as Python sees them after [resp.json()]),
    - Python's truthiness, [dict.get], [x or y] and [float(x)],
    - the HTTP calls, as an oracle [net] indexed by the position of the call,
      with a log of every request the code sends,
    - [get_pluggy_access_token], [create_connect_token], the two cursor
      pagination loops, the endpoints [health], [api_create_connect_token]
      and [get_snapshot].

    Numbers.  A Python [float] is modelled by an exact rational [Q]: the
    rounding and the overflow of IEEE-754 arithmetic are not modelled.
    [float(s)] on a string is the Section variable [float_of_str]
    (Python's literal grammar: digits, exponent, [inf], [nan], underscores,
    whitespace), so every result holds for any such conversion.

    Loops.  A [while True] loop whose exit depends on the upstream server is
    run with fuel: [RFuel] means that the fuel ran out while Python would
    still be looping. *)

From Stdlib Require Import String Ascii List ZArith QArith Bool Lia.
Import ListNotations.

Set Warnings "-register-all".

Open Scope string_scope.

(** ** JSON values *)

Inductive json : Type :=
| JNull
| JBool (b : bool)
| JNum (q : Q)
| JStr (s : string)
| JList (l : list json)
| JObj (kvs : list (string * json)).

(** [d.get(k)]: a dictionary built by [json.loads] keeps the last binding of
    a duplicated key. *)
Fixpoint dict_get (k : string) (kvs : list (string * json)) : option json :=
  match kvs with
  | [] => None
  | (k', v) :: r =>
      match dict_get k r with
      | Some w => Some w
      | None => if String.eqb k k' then Some v else None
      end
  end.

(** [d.get(k, default)] *)
Definition dict_get_default (kvs : list (string * json)) (k : string) (d : json) : json :=
  match dict_get k kvs with
  | Some v => v
  | None => d
  end.

(** [d[k] = v]: update an existing key in place, otherwise append it. *)
Definition dict_set (k : string) (v : json) (kvs : list (string * json))
  : list (string * json) :=
  if existsb (fun kv => String.eqb k (fst kv)) kvs
  then map (fun kv => if String.eqb k (fst kv) then (k, v) else kv) kvs
  else kvs ++ [(k, v)].

(** Keys of a dictionary in insertion order, each once. *)
Fixpoint dict_keys_aux (seen : list string) (kvs : list (string * json)) : list string :=
  match kvs with
  | [] => []
  | (k, _) :: r =>
      if existsb (String.eqb k) seen then dict_keys_aux seen r
      else k :: dict_keys_aux (k :: seen) r
  end.

Definition dict_keys (kvs : list (string * json)) : list string := dict_keys_aux [] kvs.

(** Python truthiness of a JSON value. *)
Definition truthy (v : json) : bool :=
  match v with
  | JNull => false
  | JBool b => b
  | JNum q => negb (Qeq_bool q 0)
  | JStr s => negb (String.eqb s "")
  | JList l => match l with [] => false | _ => true end
  | JObj kvs => match kvs with [] => false | _ => true end
  end.

(** [a or b] *)
Definition py_or (a b : json) : json := if truthy a then a else b.

(** Python comparison [x < y] on floats. *)
Definition Qltb (x y : Q) : bool := negb (Qle_bool y x).

(** ** Exceptions and results *)

(** The messages of the [RuntimeError]s raised in src/main.py. *)
Inductive msg : Type :=
| MsgNotConfigured                        (* "PLUGGY_CLIENT_ID ou ... não configurados" *)
| MsgAuthFailed (code : Z) (text : string) (* "Erro ao autenticar na Pluggy: ..." *)
| MsgNoAccessToken                        (* "Resposta de auth ... não trouxe accessToken" *)
| MsgConnectTokenFailed (code : Z) (text : string) (* "Erro ao criar connect token: ..." *)
| MsgListAccounts (code : Z) (text : string)       (* "Erro ao listar contas: ..." *)
| MsgListTransactions (code : Z) (text : string).  (* "Erro ao listar transações: ..." *)

Inductive exc : Type :=
| RuntimeError (m : msg)
| ValueError          (* float() of a string that is not a float literal *)
| TypeError           (* float() of None, a list or a dict; iterating a number *)
| AttributeError      (* .get on a value that is not a dict *)
| ConnectionError     (* requests raising before any response *)
| JSONDecodeError     (* resp.json() on a body that is not JSON *)
| HTTPException (status_code : Z) (detail : exc).

Inductive res (A : Type) : Type :=
| ROk (a : A)
| RErr (e : exc)
| RFuel.

Arguments ROk {A} a.
Arguments RErr {A} e.
Arguments RFuel {A}.

Definition rbind {A B} (r : res A) (f : A -> res B) : res B :=
  match r with
  | ROk a => f a
  | RErr e => RErr e
  | RFuel => RFuel
  end.

(** ** HTTP *)

(** An outgoing request.  [req_bearer] is the token of the headers built by
    [get_pluggy_headers] (Authorization: Bearer <token>, Content-Type:
    application/json); [req_json] is the [json=] payload. *)
Record http_req := mk_req {
  req_method : string;
  req_url : string;
  req_bearer : option json;
  req_params : list (string * json);
  req_json : option json;
  req_timeout : Z
}.

(** A response: [resp_json] is [None] when the body is not JSON. *)
Record http_resp := mk_resp {
  status_code : Z;
  resp_json : option json;
  resp_text : string
}.

(** Process configuration: [os.getenv] gives [None] for an unset variable. *)
Record config := mk_config {
  PLUGGY_CLIENT_ID : option string;
  PLUGGY_CLIENT_SECRET : option string
}.

Definition PLUGGY_BASE_URL : string := "https://api.pluggy.ai".

Definition env_truthy (o : option string) : bool :=
  match o with
  | None => false
  | Some s => negb (String.eqb s "")
  end.

Definition env_json (o : option string) : json :=
  match o with
  | None => JNull
  | Some s => JStr s
  end.

(** ** Python floats with their special values

    [float] in Python also yields [inf], [-inf] and [nan], and the float
    operations of [get_snapshot] treat them as IEEE 754 does.  [pyfloat]
    keeps them apart from the finite values, which stay exact rationals as
    in [py_float] (the rounding of finite values and the overflow of finite
    sums to [inf] are not modelled). *)
Inductive pyfloat : Type :=
| PFin (q : Q)
| PInf
| NInf
| PNaN.

(** [x + y] *)
Definition pf_add (x y : pyfloat) : pyfloat :=
  match x, y with
  | PFin a, PFin b => PFin (a + b)
  | PNaN, _ | _, PNaN => PNaN
  | PInf, NInf | NInf, PInf => PNaN
  | PInf, _ | _, PInf => PInf
  | NInf, _ | _, NInf => NInf
  end.

(** [x < y]: false as soon as one side is [nan]. *)
Definition pf_ltb (x y : pyfloat) : bool :=
  match x, y with
  | PFin a, PFin b => Qltb a b
  | NInf, PFin _ | NInf, PInf | PFin _, PInf => true
  | _, _ => false
  end.

(** [x == y]: [nan] equals nothing, itself included. *)
Definition pf_eqb (x y : pyfloat) : bool :=
  match x, y with
  | PFin a, PFin b => Qeq_bool a b
  | PInf, PInf | NInf, NInf => true
  | _, _ => false
  end.

(** The ASCII characters [float] skips around its argument (Python's
    whitespace: codes 9 to 13 and 28 to 32). *)
Definition is_py_space (c : ascii) : bool :=
  let n := nat_of_ascii c in ((9 <=? n) && (n <=? 13))%nat || ((28 <=? n) && (n <=? 32))%nat.

Fixpoint lstrip (l : list ascii) : list ascii :=
  match l with
  | c :: r => if is_py_space c then lstrip r else l
  | [] => []
  end.

Definition py_strip (l : list ascii) : list ascii := rev (lstrip (rev (lstrip l))).

Definition ascii_lower (c : ascii) : ascii :=
  let n := nat_of_ascii c in
  if ((65 <=? n) && (n <=? 90))%nat then ascii_of_nat (n + 32) else c.

(** The special values [float(s)] reads: an optional sign, then [inf],
    [infinity] or [nan] in any case, with whitespace around. *)
Definition special_float (s : string) : option pyfloat :=
  let l := map ascii_lower (py_strip (list_ascii_of_string s)) in
  let '(neg, body) := match l with
                      | "-"%char :: r => (true, r)
                      | "+"%char :: r => (false, r)
                      | _ => (false, l)
                      end in
  let body := string_of_list_ascii body in
  if String.eqb body "inf" || String.eqb body "infinity"
  then Some (if neg then NInf else PInf)
  else if String.eqb body "nan" then Some PNaN
  else None.

Section Program.

(** Python's [float(s)] on a string: [None] when it raises [ValueError]. *)
Variable float_of_str : string -> option Q.

(** The upstream server: the response to the [n]-th request of the process
    ([None] when [requests] raises before a response arrives). *)
Variable net : nat -> http_req -> option http_resp.

(** ** Snapshot aggregation (get_snapshot, lines 222-242) *)

(** [float(v)] *)
Definition py_float (v : json) : res Q :=
  match v with
  | JNum q => ROk q
  | JBool b => ROk (if b then 1 else 0)
  | JStr s =>
      match float_of_str s with
      | Some q => ROk q
      | None => RErr ValueError
      end
  | JNull | JList _ | JObj _ => RErr TypeError
  end.

(** Lines 224-229: the value one account adds to [saldo_total]. *)
Definition account_balance (acc : json) : res Q :=
  match acc with
  | JObj kvs =>
      let balance := py_or (dict_get_default kvs "balance" JNull) (JObj []) in
      match balance with
      | JObj b =>
          py_float (py_or (py_or (dict_get_default b "current" JNull)
                                 (dict_get_default b "available" JNull))
                          (JNum 0))
      | _ => py_float (py_or balance (JNum 0))
      end
  | _ => RErr AttributeError
  end.

(** Lines 222-229: [saldo_total += float(valor)] over the accounts. *)
Fixpoint sum_balances_from (saldo_total : Q) (accounts : list json) : res Q :=
  match accounts with
  | [] => ROk saldo_total
  | acc :: rest =>
      rbind (account_balance acc) (fun valor => sum_balances_from (saldo_total + valor) rest)
  end.

Definition sum_balances (accounts : list json) : res Q := sum_balances_from 0 accounts.

(** Line 238: [amount = float(tx.get("amount") or 0)]. *)
Definition tx_amount (tx : json) : res Q :=
  match tx with
  | JObj kvs => py_float (py_or (dict_get_default kvs "amount" JNull) (JNum 0))
  | _ => RErr AttributeError
  end.

(** Lines 234-242: the inflow and outflow totals. *)
Fixpoint flow_totals_from (total_entradas total_saidas : Q) (transactions : list json)
  : res (Q * Q) :=
  match transactions with
  | [] => ROk (total_entradas, total_saidas)
  | tx :: rest =>
      rbind (tx_amount tx) (fun amount =>
        if Qltb 0 amount then flow_totals_from (total_entradas + amount) total_saidas rest
        else if Qltb amount 0 then flow_totals_from total_entradas (total_saidas + amount) rest
        else flow_totals_from total_entradas total_saidas rest)
  end.

Definition flow_totals (transactions : list json) : res (Q * Q) :=
  flow_totals_from 0 0 transactions.

(** Lines 244-261: the snapshot dictionary. *)
Definition snapshot_json (user_id item_id : string) (saldo_total total_entradas total_saidas : Q)
  (accounts transactions : list json) : json :=
  JObj [("user_id", JStr user_id);
        ("item_id", JStr item_id);
        ("saldo_total_contas", JNum saldo_total);
        ("fluxo_geral", JObj [("total_entradas", JNum total_entradas);
                              ("total_saidas", JNum total_saidas);
                              ("saldo_movimento", JNum (total_entradas + total_saidas))]);
        ("resumo", JObj [("qtd_contas", JNum (Z.of_nat (length accounts) # 1));
                         ("qtd_transacoes", JNum (Z.of_nat (length transactions) # 1))]);
        ("raw", JObj [("accounts", JList accounts); ("transactions", JList transactions)])].

(** ** The request monad: the log of the requests sent so far, and a result *)

Definition M (A : Type) : Type := list http_req -> res A * list http_req.

Definition ret {A} (a : A) : M A := fun log => (ROk a, log).

Definition raise {A} (e : exc) : M A := fun log => (RErr e, log).

Definition bind {A B} (m : M A) (f : A -> M B) : M B :=
  fun log =>
    match m log with
    | (ROk a, log') => f a log'
    | (RErr e, log') => (RErr e, log')
    | (RFuel, log') => (RFuel, log')
    end.

Definition lift {A} (r : res A) : M A := fun log => (r, log).

(** [try: m except Exception as e: h(e)] *)
Definition try_except {A} (m : M A) (h : exc -> M A) : M A :=
  fun log =>
    match m log with
    | (RErr e, log') => h e log'
    | o => o
    end.

Notation "x <- m ;; k" := (bind m (fun x => k))
  (at level 61, m at next level, right associativity).

(** [requests.post] / [requests.get]: the request is logged, then answered. *)
Definition send (r : http_req) : M http_resp :=
  fun log =>
    (match net (length log) r with
     | Some resp => ROk resp
     | None => RErr ConnectionError
     end, (log ++ [r])%list).

(** [resp.json()] *)
Definition resp_json_m (r : http_resp) : M json :=
  match resp_json r with
  | Some j => ret j
  | None => raise JSONDecodeError
  end.

(** [data.get(k, d)] *)
Definition get_m (data : json) (k : string) (d : json) : M json :=
  match data with
  | JObj kvs => ret (dict_get_default kvs k d)
  | _ => raise AttributeError
  end.

(** [iterable] in [list.extend(iterable)]: a list, the characters of a
    string, the keys of a dict; anything else raises [TypeError]. *)
Definition py_iter (v : json) : res (list json) :=
  match v with
  | JList l => ROk l
  | JStr s => ROk (map (fun c => JStr (String c EmptyString)) (list_ascii_of_string s))
  | JObj kvs => ROk (map JStr (dict_keys kvs))
  | _ => RErr TypeError
  end.

(** ** Authentication (lines 19-55) *)

Definition credentials_payload (cfg : config) : list (string * json) :=
  [("clientId", env_json (PLUGGY_CLIENT_ID cfg));
   ("clientSecret", env_json (PLUGGY_CLIENT_SECRET cfg))].

Definition get_pluggy_access_token (cfg : config) : M json :=
  if negb (env_truthy (PLUGGY_CLIENT_ID cfg)) || negb (env_truthy (PLUGGY_CLIENT_SECRET cfg))
  then raise (RuntimeError MsgNotConfigured)
  else
    resp <- send (mk_req "POST" (PLUGGY_BASE_URL ++ "/auth") None []
                         (Some (JObj (credentials_payload cfg))) 30);;
    if (400 <=? status_code resp)%Z
    then raise (RuntimeError (MsgAuthFailed (status_code resp) (resp_text resp)))
    else
      data <- resp_json_m resp;;
      token <- get_m data "accessToken" JNull;;
      if negb (truthy token) then raise (RuntimeError MsgNoAccessToken)
      else ret token.

(** The headers are determined by the token: [Bearer {token}]. *)
Definition get_pluggy_headers (cfg : config) : M json :=
  token <- get_pluggy_access_token cfg;;
  ret token.

(** ** Health (lines 65-67) *)

Definition health : M json := ret (JObj [("status", JStr "ok")]).

(** ** Connect token (lines 87-110) *)

Definition create_connect_token (cfg : config) (user_id : string) : M json :=
  if negb (env_truthy (PLUGGY_CLIENT_ID cfg)) || negb (env_truthy (PLUGGY_CLIENT_SECRET cfg))
  then raise (RuntimeError MsgNotConfigured)
  else
    resp <- send (mk_req "POST" (PLUGGY_BASE_URL ++ "/connect_token") None []
                         (Some (JObj (credentials_payload cfg ++ [("userId", JStr user_id)])%list)) 30);;
    if (400 <=? status_code resp)%Z
    then raise (RuntimeError (MsgConnectTokenFailed (status_code resp) (resp_text resp)))
    else resp_json_m resp.

(** ** Cursor pagination (lines 128-146 and 165-183)

    Both loops are the same code, up to the URL, the timeout and the error
    message; [fetch_loop] is that loop, one iteration per unit of fuel.
    [cursor] is the value of the Python variable at the top of the loop. *)
Fixpoint fetch_loop (fuel : nat) (url : string) (token : json) (timeout : Z)
  (err : Z -> string -> msg) (params : list (string * json)) (acc : list json)
  (cursor : json) : M (list json) :=
  match fuel with
  | O => fun log => (RFuel, log)
  | S fuel' =>
      let params := if truthy cursor then dict_set "cursor" cursor params else params in
      resp <- send (mk_req "GET" url (Some token) params None timeout);;
      if (400 <=? status_code resp)%Z
      then raise (RuntimeError (err (status_code resp) (resp_text resp)))
      else
        data <- resp_json_m resp;;
        results <- get_m data "results" (JList []);;
        items <- lift (py_iter results);;
        let acc := (acc ++ items)%list in
        cursor <- get_m data "nextCursor" JNull;;
        if negb (truthy cursor) then ret acc
        else fetch_loop fuel' url token timeout err params acc cursor
  end.

Definition fetch_accounts_by_item (cfg : config) (fuel : nat) (item_id : string) : M (list json) :=
  let url := PLUGGY_BASE_URL ++ "/accounts" in
  headers <- get_pluggy_headers cfg;;
  fetch_loop fuel url headers 30 MsgListAccounts
    [("itemId", JStr item_id); ("pageSize", JNum 100)] [] JNull.

Definition fetch_transactions_by_item (cfg : config) (fuel : nat) (item_id : string) : M (list json) :=
  let url := PLUGGY_BASE_URL ++ "/transactions" in
  headers <- get_pluggy_headers cfg;;
  fetch_loop fuel url headers 60 MsgListTransactions
    [("itemId", JStr item_id); ("pageSize", JNum 500)] [] JNull.

(** ** Endpoints (lines 190-266) *)

(** The value returned by the handler of POST /pluggy/connect-token, before
    FastAPI validates it against [ConnectTokenResponse]. *)
Definition api_create_connect_token (cfg : config) (user_id : string) : M json :=
  try_except
    (data <- create_connect_token cfg user_id;;
     access <- get_m data "accessToken" JNull;;
     tok <- (if truthy access then ret access else get_m data "connectToken" JNull);;
     ret (JObj [("connectToken", tok); ("raw", data)]))
    (fun e => raise (HTTPException 500 e)).

(** GET /users/{user_id}/snapshot *)
Definition get_snapshot (cfg : config) (fuel : nat) (user_id item_id : string) : M json :=
  try_except
    (accounts <- fetch_accounts_by_item cfg fuel item_id;;
     saldo_total <- lift (sum_balances accounts);;
     transactions <- fetch_transactions_by_item cfg fuel item_id;;
     totals <- lift (flow_totals transactions);;
     ret (snapshot_json user_id item_id saldo_total (fst totals) (snd totals)
                        accounts transactions))
    (fun e => raise (HTTPException 500 e)).

(** ** The aggregation of get_snapshot over Python floats (lines 217-263)

    The same code as [py_float] to [get_snapshot] above, with the values of
    [float] taken in [pyfloat].  A JSON number too large for a double,
    which Python's [json] reads as [inf], has no [json] counterpart; the
    strings ["inf"] and ["-inf"] reach the same values. *)

Definition float_of_str_ieee (s : string) : option pyfloat :=
  match special_float s with
  | Some f => Some f
  | None => option_map PFin (float_of_str s)
  end.

(** [float(v)] *)
Definition py_float_ieee (v : json) : res pyfloat :=
  match v with
  | JNum q => ROk (PFin q)
  | JBool b => ROk (PFin (if b then 1 else 0))
  | JStr s =>
      match float_of_str_ieee s with
      | Some f => ROk f
      | None => RErr ValueError
      end
  | JNull | JList _ | JObj _ => RErr TypeError
  end.

(** Lines 224-229: the value one account adds to [saldo_total]. *)
Definition account_balance_ieee (acc : json) : res pyfloat :=
  match acc with
  | JObj kvs =>
      let balance := py_or (dict_get_default kvs "balance" JNull) (JObj []) in
      match balance with
      | JObj b =>
          py_float_ieee (py_or (py_or (dict_get_default b "current" JNull)
                                      (dict_get_default b "available" JNull))
                               (JNum 0))
      | _ => py_float_ieee (py_or balance (JNum 0))
      end
  | _ => RErr AttributeError
  end.

Fixpoint sum_balances_from_ieee (saldo_total : pyfloat) (accounts : list json) : res pyfloat :=
  match accounts with
  | [] => ROk saldo_total
  | acc :: rest =>
      rbind (account_balance_ieee acc) (fun valor =>
        sum_balances_from_ieee (pf_add saldo_total valor) rest)
  end.

Definition sum_balances_ieee (accounts : list json) : res pyfloat :=
  sum_balances_from_ieee (PFin 0) accounts.

(** Line 238: [amount = float(tx.get("amount") or 0)]. *)
Definition tx_amount_ieee (tx : json) : res pyfloat :=
  match tx with
  | JObj kvs => py_float_ieee (py_or (dict_get_default kvs "amount" JNull) (JNum 0))
  | _ => RErr AttributeError
  end.

(** Lines 234-242: the inflow and outflow totals. *)
Fixpoint flow_totals_from_ieee (total_entradas total_saidas : pyfloat) (transactions : list json)
  : res (pyfloat * pyfloat) :=
  match transactions with
  | [] => ROk (total_entradas, total_saidas)
  | tx :: rest =>
      rbind (tx_amount_ieee tx) (fun amount =>
        if pf_ltb (PFin 0) amount
        then flow_totals_from_ieee (pf_add total_entradas amount) total_saidas rest
        else if pf_ltb amount (PFin 0)
        then flow_totals_from_ieee total_entradas (pf_add total_saidas amount) rest
        else flow_totals_from_ieee total_entradas total_saidas rest)
  end.

Definition flow_totals_ieee (transactions : list json) : res (pyfloat * pyfloat) :=
  flow_totals_from_ieee (PFin 0) (PFin 0) transactions.

(** GET /users/{user_id}/snapshot over Python floats; the result is the
    four float entries of the snapshot: [saldo_total_contas],
    [total_entradas], [total_saidas] and [saldo_movimento]. *)
Definition get_snapshot_ieee (cfg : config) (fuel : nat) (user_id item_id : string)
  : M (pyfloat * pyfloat * pyfloat * pyfloat) :=
  try_except
    (accounts <- fetch_accounts_by_item cfg fuel item_id;;
     saldo_total <- lift (sum_balances_ieee accounts);;
     transactions <- fetch_transactions_by_item cfg fuel item_id;;
     totals <- lift (flow_totals_ieee transactions);;
     ret (saldo_total, fst totals, snd totals, pf_add (fst totals) (snd totals)))
    (fun e => raise (HTTPException 500 e)).

End Program.

(** [ConnectTokenResponse] (lines 78-80): [connectToken: str], [raw: Dict]. *)
Definition ConnectTokenResponse_valid (v : json) : bool :=
  match v with
  | JObj kvs =>
      match dict_get "connectToken" kvs, dict_get "raw" kvs with
      | Some (JStr _), Some (JObj _) => true
      | _, _ => false
      end
  | _ => false
  end.

(** ** Concrete instances used by the examples *)

(** A decimal instance of [float_of_str]: an optional sign, digits, an
    optional fraction.  Python's [float] accepts these strings with these
    values (and more strings besides); it rejects a string without digits
    such as ["abc"], as this parser does. *)
Definition digit_val (c : ascii) : option Z :=
  let n := nat_of_ascii c in
  if (48 <=? n)%nat && (n <=? 57)%nat then Some (Z.of_nat (n - 48)) else None.

Fixpoint read_digits (l : list ascii) (acc : Z) (n : nat) : Z * nat * list ascii :=
  match l with
  | c :: r =>
      match digit_val c with
      | Some d => read_digits r (acc * 10 + d)%Z (S n)
      | None => (acc, n, l)
      end
  | [] => (acc, n, [])
  end.

Definition decimal_float_of_string (s : string) : option Q :=
  let l := list_ascii_of_string s in
  let '(neg, l) := match l with
                   | "-"%char :: r => (true, r)
                   | "+"%char :: r => (false, r)
                   | _ => (false, l)
                   end in
  let '(ip, ni, l) := read_digits l 0 0 in
  let '(fp, nf, l) := match l with
                      | "."%char :: r => read_digits r 0 0
                      | _ => (0%Z, 0%nat, l)
                      end in
  match l, (ni + nf)%nat with
  | [], S _ =>
      let den := (10 ^ Z.of_nat nf)%Z in
      let num := (ip * den + fp)%Z in
      Some (Qmake (if neg then (- num)%Z else num) (Z.to_pos den))
  | _, _ => None
  end.

Definition demo_cfg : config := mk_config (Some "client-id") (Some "client-secret").

Definition auth_resp : http_resp :=
  mk_resp 200 (Some (JObj [("accessToken", JStr "tok")])) "".

Definition page_resp (results : list json) (next : json) : http_resp :=
  mk_resp 200 (Some (JObj [("results", JList results); ("nextCursor", next)])) "".

Definition A : json := JObj [("id", JStr "A")].
Definition B : json := JObj [("id", JStr "B")].
Definition C : json := JObj [("id", JStr "C")].

(** Authentication, then pages [A,B] (cursor "c1") and [C] (no cursor). *)
Definition two_pages_net (n : nat) (_ : http_req) : option http_resp :=
  match n with
  | O => Some auth_resp
  | 1%nat => Some (page_resp [A; B] (JStr "c1"))
  | 2%nat => Some (page_resp [C] JNull)
  | _ => None
  end.

(** Authentication, then page [A,B] (cursor "c1"), then status 503. *)
Definition failing_net (n : nat) (_ : http_req) : option http_resp :=
  match n with
  | O => Some auth_resp
  | 1%nat => Some (page_resp [A; B] (JStr "c1"))
  | 2%nat => Some (mk_resp 503 None "Service Unavailable")
  | _ => None
  end.

(** Authentication, then [n] pages with a cursor, then a last page. *)
Definition cursor_net (n : nat) (i : nat) (_ : http_req) : option http_resp :=
  if (i =? 0)%nat then Some auth_resp
  else if (i <=? n)%nat then Some (page_resp [JStr "x"] (JStr "next"))
  else if (i =? S n)%nat then Some (page_resp [JStr "x"] JNull)
  else None.

(** The requests of one snapshot: authentication and one page of accounts,
    authentication and one page of transactions. *)
Definition snapshot_net (accounts transactions : list json) (n : nat) (_ : http_req)
  : option http_resp :=
  match n with
  | 0%nat | 2%nat => Some auth_resp
  | 1%nat => Some (page_resp accounts JNull)
  | 3%nat => Some (page_resp transactions JNull)
  | _ => None
  end.

Definition acct (balance : json) : json := JObj [("id", JStr "acc"); ("balance", balance)].
Definition txn (amount : json) : json := JObj [("id", JStr "tx"); ("amount", amount)].

Definition demo_accounts : list json :=
  [acct (JNum 100); acct (JObj [("current", JNum 50)])].

Definition demo_transactions : list json :=
  [txn (JNum 3); txn (JNum (-2)); txn (JStr "1.5"); txn JNull; txn (JNum 0)].

Definition demo_snapshot : json :=
  snapshot_json "u" "i" 150 4.5 (-2) demo_accounts demo_transactions.

(** The connect-token endpoint answers a payload with neither
    [accessToken] nor [connectToken]. *)
Definition connect_net (n : nat) (_ : http_req) : option http_resp :=
  match n with
  | O => Some (mk_resp 201 (Some (JObj [("id", JStr "ct-1")])) "")
  | _ => None
  end.

Definition creds_set (cfg : config) : bool :=
  env_truthy (PLUGGY_CLIENT_ID cfg) && env_truthy (PLUGGY_CLIENT_SECRET cfg).

(** The request sent by [get_pluggy_access_token] (lines 27-33). *)
Definition auth_request (cfg : config) : http_req :=
  mk_req "POST" (PLUGGY_BASE_URL ++ "/auth") None [] (Some (JObj (credentials_payload cfg))) 30.

(** The request sent by [create_connect_token] (lines 95-103). *)
Definition connect_request (cfg : config) (user_id : string) : http_req :=
  mk_req "POST" (PLUGGY_BASE_URL ++ "/connect_token") None []
    (Some (JObj (credentials_payload cfg ++ [("userId", JStr user_id)])%list)) 30.

(** The page requests [new] of one run of the pagination loop, sent from
    call number [base] on: all are GET requests to [url] with the bearer
    [tok], no body, the timeout [timeout] and the parameters [params] apart
    from [cursor]; each one after the first carries as [cursor] the
    [nextCursor] of the answer to the one before. *)
Definition page_requests (net : nat -> http_req -> option http_resp) (base : nat)
  (url : string) (tok : json) (timeout : Z) (params : list (string * json))
  (new : list http_req) : Prop :=
  (forall q, In q new ->
     req_method q = "GET" /\ req_url q = url /\ req_bearer q = Some tok /\
     req_json q = None /\ req_timeout q = timeout /\
     forall k, k <> "cursor" -> dict_get k (req_params q) = dict_get k params) /\
  (forall i q q', nth_error new i = Some q -> nth_error new (S i) = Some q' ->
     exists resp kvs, net (base + i)%nat q = Some resp /\ resp_json resp = Some (JObj kvs) /\
       dict_get "cursor" (req_params q') = Some (dict_get_default kvs "nextCursor" JNull)).

(** The requests of one run of a paginated fetch from the log [log]: none
    when the credentials are unset; the authentication request alone when
    it fails; otherwise the authentication request, then page requests
    carrying its token, the first one without a cursor. *)
Definition fetch_log (net : nat -> http_req -> option http_resp) (cfg : config)
  (log : list http_req) (url : string) (timeout : Z) (params : list (string * json))
  (log' : list http_req) : Prop :=
  (creds_set cfg = false /\ log' = log) \/
  (creds_set cfg = true /\
   exists e, fst (get_pluggy_access_token net cfg log) = RErr e /\
             log' = (log ++ [auth_request cfg])%list) \/
  (creds_set cfg = true /\
   exists tok pages,
     get_pluggy_access_token net cfg log = (ROk tok, (log ++ [auth_request cfg])%list) /\
     log' = (log ++ auth_request cfg :: pages)%list /\
     page_requests net (S (length log)) url tok timeout params pages /\
     (forall q, nth_error pages 0 = Some q -> dict_get "cursor" (req_params q) = None)).

(** Authentication, then the same answer [resp] to every later request. *)
Definition edge_net (resp : http_resp) (n : nat) (_ : http_req) : option http_resp :=
  match n with
  | O => Some auth_resp
  | _ => Some resp
  end.

(** A page answer with no [results] key and no next cursor. *)
Definition no_results_resp : http_resp :=
  mk_resp 200 (Some (JObj [("nextCursor", JNull)])) "".

(** ** Predicates on the upstream responses *)

(** [r] is a successful page whose [results] are [results] and whose
    [nextCursor] is truthy exactly when [more]. *)
Definition page_ok (r : http_resp) (results : list json) (more : bool) : Prop :=
  (status_code r < 400)%Z /\
  exists kvs, resp_json r = Some (JObj kvs) /\
    dict_get_default kvs "results" (JList []) = JList results /\
    truthy (dict_get_default kvs "nextCursor" JNull) = more.

(** From call [base] on, the server answers with the pages [pages], each
    with a truthy cursor, whatever the request. *)
Definition serves_more (net : nat -> http_req -> option http_resp) (base : nat)
  (pages : list (list json)) : Prop :=
  forall i req, (i < length pages)%nat ->
    exists r, net (base + i)%nat req = Some r /\ page_ok r (nth i pages []) true.

(** The server answers call [n] with a successful authentication. *)
Definition auth_ok (net : nat -> http_req -> option http_resp) (n : nat) : Prop :=
  forall req, exists r kvs,
    net n req = Some r /\ (status_code r < 400)%Z /\ resp_json r = Some (JObj kvs) /\
    truthy (dict_get_default kvs "accessToken" JNull) = true.

(** Whether the pagination loop goes on after receiving [o]. *)
Definition page_continues (o : option http_resp) : bool :=
  match o with
  | None => false
  | Some r =>
      if (400 <=? status_code r)%Z then false
      else match resp_json r with
           | Some (JObj kvs) =>
               match py_iter (dict_get_default kvs "results" (JList [])) with
               | ROk _ => truthy (dict_get_default kvs "nextCursor" JNull)
               | _ => false
               end
           | _ => false
           end
  end.

(** [map] with the first exception propagated. *)
Fixpoint map_res {X Y} (f : X -> res Y) (l : list X) : res (list Y) :=
  match l with
  | [] => ROk []
  | x :: r => rbind (f x) (fun y => rbind (map_res f r) (fun ys => ROk (y :: ys)))
  end.

(** A left-to-right float sum starting from [0.0]. *)
Definition sum_list (l : list Q) : Q := fold_left Qplus l 0.

(** The [saldo_total_contas] entry of a snapshot. *)
Definition snapshot_saldo (snap : json) : option Q :=
  match snap with
  | JObj kvs =>
      match dict_get "saldo_total_contas" kvs with
      | Some (JNum q) => Some q
      | _ => None
      end
  | _ => None
  end.

(** ** Lemmas on the pagination loop *)

Lemma fetch_loop_pages net pages last :
  forall fuel url tok t err params acc cursor log,
  serves_more net (length log) pages ->
  (forall req, exists r, net (length log + length pages)%nat req = Some r /\ page_ok r last false) ->
  (length pages < fuel)%nat ->
  exists log', fetch_loop net fuel url tok t err params acc cursor log
               = (ROk (acc ++ concat pages ++ last)%list, log') /\
               length log' = (length log + S (length pages))%nat.
Proof.
  induction pages as [|p ps IH]; intros fuel url tok t err params acc cursor log Hser Hlast Hf;
    (destruct fuel as [|fuel]; [simpl in Hf; lia|]).
  - cbn [fetch_loop]. unfold bind at 1, send.
    match goal with |- context [net ?n ?rq] => destruct (Hlast rq) as [r [Hr Hok]] end.
    simpl length in Hr. rewrite Nat.add_0_r in Hr. rewrite Hr.
    destruct Hok as [Hs [kvs [Hj [Hres Hcur]]]].
    replace (400 <=? status_code r)%Z with false by (symmetry; apply Z.leb_gt; lia).
    unfold resp_json_m. rewrite Hj. cbn. rewrite Hres. cbn. rewrite Hcur. cbn.
    eexists. split; [reflexivity|]. rewrite length_app. simpl. lia.
  - cbn [fetch_loop]. unfold bind at 1, send.
    match goal with |- context [net ?n ?rq] => destruct (Hser 0%nat rq) as [r [Hr Hok]] end.
    { simpl. lia. }
    rewrite Nat.add_0_r in Hr. rewrite Hr.
    destruct Hok as [Hs [kvs [Hj [Hres Hcur]]]]. simpl nth in Hres.
    replace (400 <=? status_code r)%Z with false by (symmetry; apply Z.leb_gt; lia).
    unfold resp_json_m. rewrite Hj. cbn. rewrite Hres. cbn. rewrite Hcur. cbn.
    match goal with
    | |- context [fetch_loop net fuel ?u ?tk ?tt ?e ?pa ?ac ?cu ?lg] =>
        destruct (IH fuel u tk tt e pa ac cu lg) as [log' [Heq Hlen]]
    end.
    + intros i req Hi. rewrite length_app. simpl.
      destruct (Hser (S i) req) as [r' [Hr' Hok']]; [simpl; lia|].
      exists r'. split; [rewrite <- Hr'; f_equal; lia | exact Hok'].
    + intros req. rewrite length_app. simpl.
      destruct (Hlast req) as [r' [Hr' Hok']]. exists r'.
      split; [rewrite <- Hr'; f_equal; simpl; lia | exact Hok'].
    + simpl in Hf. lia.
    + rewrite Heq. eexists. split.
      * f_equal. f_equal. rewrite <- !app_assoc. reflexivity.
      * rewrite Hlen, length_app. simpl. lia.
Qed.

Lemma fetch_loop_error net pages code body text :
  forall fuel url tok t err params acc cursor log,
  serves_more net (length log) pages ->
  (forall req, net (length log + length pages)%nat req = Some (mk_resp code body text)) ->
  (400 <= code)%Z ->
  (length pages < fuel)%nat ->
  fst (fetch_loop net fuel url tok t err params acc cursor log) = RErr (RuntimeError (err code text)).
Proof.
  induction pages as [|p ps IH]; intros fuel url tok t err params acc cursor log Hser Hfail Hc Hf;
    (destruct fuel as [|fuel]; [simpl in Hf; lia|]).
  - cbn [fetch_loop]. unfold bind at 1, send.
    match goal with |- context [net ?n ?rq] => pose proof (Hfail rq) as Hr end.
    simpl length in Hr. rewrite Nat.add_0_r in Hr. rewrite Hr. cbn.
    replace (400 <=? code)%Z with true by (symmetry; apply Z.leb_le; lia).
    reflexivity.
  - cbn [fetch_loop]. unfold bind at 1, send.
    match goal with |- context [net ?n ?rq] => destruct (Hser 0%nat rq) as [r [Hr Hok]] end.
    { simpl. lia. }
    rewrite Nat.add_0_r in Hr. rewrite Hr.
    destruct Hok as [Hs [kvs [Hj [Hres Hcur]]]]. simpl nth in Hres.
    replace (400 <=? status_code r)%Z with false by (symmetry; apply Z.leb_gt; lia).
    unfold resp_json_m. rewrite Hj. cbn. rewrite Hres. cbn. rewrite Hcur. cbn.
    apply IH.
    + intros i req Hi. rewrite length_app. simpl.
      destruct (Hser (S i) req) as [r' [Hr' Hok']]; [simpl; lia|].
      exists r'. split; [rewrite <- Hr'; f_equal; lia | exact Hok'].
    + intros req. rewrite length_app. simpl.
      rewrite <- (Hfail req). f_equal. simpl. lia.
    + exact Hc.
    + simpl in Hf. lia.
Qed.

Lemma py_iter_not_fuel v : py_iter v <> RFuel.
Proof. destruct v; discriminate. Qed.

Lemma fetch_loop_terminates net N :
  forall fuel url tok t err params acc cursor log,
  (forall req, page_continues (net (length log + N)%nat req) = false) ->
  (N < fuel)%nat ->
  fst (fetch_loop net fuel url tok t err params acc cursor log) <> RFuel.
Proof.
  induction N as [|N IH]; intros fuel url tok t err params acc cursor log Hstop Hf;
    (destruct fuel as [|fuel]; [lia|]);
    cbn [fetch_loop]; unfold bind at 1, send;
    match goal with
    | |- context [net ?n ?rq] => pose proof (Hstop rq) as Hst; destruct (net n rq) as [r|] eqn:Hr
    end; cbn; try discriminate;
    (destruct (400 <=? status_code r)%Z eqn:Hs; cbn; [discriminate|]);
    unfold resp_json_m; (destruct (resp_json r) as [j|] eqn:Hj; cbn; [|discriminate]);
    (destruct j; cbn; try discriminate);
    (destruct (py_iter (dict_get_default kvs "results" (JList []))) eqn:Hi; cbn;
       [| discriminate | exfalso; exact (py_iter_not_fuel _ Hi)]);
    (destruct (truthy (dict_get_default kvs "nextCursor" JNull)) eqn:Hc; cbn; [|discriminate]).
  - rewrite Nat.add_0_r, Hr in Hst. cbn in Hst. rewrite Hs, Hj, Hi, Hc in Hst. discriminate.
  - apply IH; [|lia]. intros req. rewrite length_app. simpl.
    replace (length log + 1 + N)%nat with (length log + S N)%nat by lia. apply Hstop.
Qed.

Lemma fetch_loop_out_of_fuel net pages :
  forall fuel url tok t err params acc cursor log,
  serves_more net (length log) pages ->
  (fuel <= length pages)%nat ->
  fst (fetch_loop net fuel url tok t err params acc cursor log) = RFuel.
Proof.
  induction pages as [|p ps IH]; intros fuel url tok t err params acc cursor log Hser Hf;
    (destruct fuel as [|fuel]; [reflexivity|]).
  - simpl in Hf. lia.
  - cbn [fetch_loop]. unfold bind at 1, send.
    match goal with |- context [net ?n ?rq] => destruct (Hser 0%nat rq) as [r [Hr Hok]] end.
    { simpl. lia. }
    rewrite Nat.add_0_r in Hr. rewrite Hr.
    destruct Hok as [Hs [kvs [Hj [Hres Hcur]]]]. simpl nth in Hres.
    replace (400 <=? status_code r)%Z with false by (symmetry; apply Z.leb_gt; lia).
    unfold resp_json_m. rewrite Hj. cbn. rewrite Hres. cbn. rewrite Hcur. cbn.
    apply IH.
    + intros i req Hi. rewrite length_app. simpl.
      destruct (Hser (S i) req) as [r' [Hr' Hok']]; [simpl; lia|].
      exists r'. split; [rewrite <- Hr'; f_equal; lia | exact Hok'].
    + simpl in Hf. lia.
Qed.

(** ** Lemmas on authentication *)

Lemma get_pluggy_access_token_shape net cfg log :
  match get_pluggy_access_token net cfg log with
  | (ROk _, log') => length log' = S (length log)
  | (RErr _, _) => True
  | (RFuel, _) => False
  end.
Proof.
  unfold get_pluggy_access_token.
  destruct (negb (env_truthy (PLUGGY_CLIENT_ID cfg)) || negb (env_truthy (PLUGGY_CLIENT_SECRET cfg)));
    [exact I|].
  unfold bind, send, raise, ret, resp_json_m, get_m.
  destruct (net _ _) as [r|]; cbn; [|exact I].
  destruct (400 <=? status_code r)%Z; cbn; [exact I|].
  destruct (resp_json r) as [[| | | | |kvs]|]; cbn; try exact I.
  destruct (truthy (dict_get_default kvs "accessToken" JNull)); cbn; [|exact I].
  rewrite length_app. simpl. lia.
Qed.

Lemma get_pluggy_access_token_ok net cfg log :
  creds_set cfg = true -> auth_ok net (length log) ->
  exists tok log', length log' = S (length log) /\
    get_pluggy_access_token net cfg log = (ROk tok, log').
Proof.
  intros Hc Ha. unfold creds_set in Hc. apply andb_prop in Hc as [H1 H2].
  unfold get_pluggy_access_token. rewrite H1, H2. cbn [negb orb].
  unfold bind, send.
  match goal with |- context [net ?n ?rq] => destruct (Ha rq) as [r [kvs [Hr [Hs [Hj Ht]]]]] end.
  rewrite Hr.
  replace (400 <=? status_code r)%Z with false by (symmetry; apply Z.leb_gt; lia).
  unfold resp_json_m. rewrite Hj. cbn. rewrite Ht. cbn.
  eexists _, _. split; [|reflexivity].
  rewrite length_app. simpl. lia.
Qed.

Lemma get_pluggy_headers_ok net cfg log :
  creds_set cfg = true -> auth_ok net (length log) ->
  exists tok log', length log' = S (length log) /\
    forall A (k : json -> M A), bind (get_pluggy_headers net cfg) k log = k tok log'.
Proof.
  intros Hc Ha. destruct (get_pluggy_access_token_ok net cfg log Hc Ha) as [tok [log' [Hl Heq]]].
  exists tok, log'. split; [exact Hl|]. intros A0 k.
  unfold get_pluggy_headers, bind at 1 2. rewrite Heq. reflexivity.
Qed.

Lemma concat_repeat_single (x : json) n : (concat (repeat [x] n) ++ [x])%list = repeat x (S n).
Proof.
  induction n as [|n IH]; [reflexivity|]. simpl in *. now rewrite IH.
Qed.

Lemma cursor_net_serves n : serves_more (cursor_net n) 1 (repeat [JStr "x"] n).
Proof.
  intros i req Hi. rewrite repeat_length in Hi.
  exists (page_resp [JStr "x"] (JStr "next")). split.
  - unfold cursor_net.
    replace ((1 + i) =? 0)%nat with false by (symmetry; apply Nat.eqb_neq; lia).
    replace ((1 + i) <=? n)%nat with true by (symmetry; apply Nat.leb_le; lia). reflexivity.
  - rewrite nth_repeat_lt by lia.
    split; [reflexivity|]. eexists. split; [reflexivity|]. split; reflexivity.
Qed.

Lemma cursor_net_last n req :
  exists r, cursor_net n (S (length (@nil http_req)) + length (repeat [JStr "x"] n))%nat req = Some r
            /\ page_ok r [JStr "x"] false.
Proof.
  rewrite repeat_length. exists (page_resp [JStr "x"] JNull). split.
  - unfold cursor_net. simpl length.
    replace ((1 + n) =? 0)%nat with false by (symmetry; apply Nat.eqb_neq; lia).
    replace ((1 + n) <=? n)%nat with false by (symmetry; apply Nat.leb_gt; lia).
    replace ((1 + n) =? S n)%nat with true by (symmetry; apply Nat.eqb_eq; lia). reflexivity.
  - split; [reflexivity|]. eexists. split; [reflexivity|]. split; reflexivity.
Qed.

(** ** Pagination *)

(** C1: once authenticated, when the server answers with the pages [pages]
    (each with a cursor) and then the page [last] (without one), both
    paginated fetches return the concatenation of the [results] of all the
    pages, in the order of the requests. *)
Theorem fetch_by_item_concat_pages net cfg item_id pages last fuel log :
  creds_set cfg = true ->
  auth_ok net (length log) ->
  serves_more net (S (length log)) pages ->
  (forall req, exists r, net (S (length log) + length pages)%nat req = Some r /\ page_ok r last false) ->
  (length pages < fuel)%nat ->
  fst (fetch_accounts_by_item net cfg fuel item_id log) = ROk (concat (pages ++ [last])) /\
  fst (fetch_transactions_by_item net cfg fuel item_id log) = ROk (concat (pages ++ [last])).
Proof.
  intros Hc Ha Hser Hlast Hf.
  destruct (get_pluggy_headers_ok net cfg log Hc Ha) as [tok [log' [Hl Hk]]].
  rewrite concat_app. simpl concat. rewrite app_nil_r.
  unfold fetch_accounts_by_item, fetch_transactions_by_item. rewrite !Hk.
  rewrite <- Hl in Hser, Hlast.
  split.
  - destruct (fetch_loop_pages net pages last fuel (PLUGGY_BASE_URL ++ "/accounts") tok 30
                MsgListAccounts [("itemId", JStr item_id); ("pageSize", JNum 100)] [] JNull log'
                Hser Hlast Hf) as [log'' [Heq _]].
    rewrite Heq. reflexivity.
  - destruct (fetch_loop_pages net pages last fuel (PLUGGY_BASE_URL ++ "/transactions") tok 60
                MsgListTransactions [("itemId", JStr item_id); ("pageSize", JNum 500)] [] JNull log'
                Hser Hlast Hf) as [log'' [Heq _]].
    rewrite Heq. reflexivity.
Qed.

(** C5: when, after some successful pages, a page request gets a status
    [>= 400], both paginated fetches raise the [RuntimeError] carrying that
    status: no list of records is returned. *)
Theorem fetch_by_item_error_page net cfg item_id pages code body text fuel log :
  creds_set cfg = true ->
  auth_ok net (length log) ->
  serves_more net (S (length log)) pages ->
  (forall req, net (S (length log) + length pages)%nat req = Some (mk_resp code body text)) ->
  (400 <= code)%Z ->
  (length pages < fuel)%nat ->
  fst (fetch_accounts_by_item net cfg fuel item_id log)
    = RErr (RuntimeError (MsgListAccounts code text)) /\
  fst (fetch_transactions_by_item net cfg fuel item_id log)
    = RErr (RuntimeError (MsgListTransactions code text)).
Proof.
  intros Hc Ha Hser Hfail Hcode Hf.
  destruct (get_pluggy_headers_ok net cfg log Hc Ha) as [tok [log' [Hl Hk]]].
  unfold fetch_accounts_by_item, fetch_transactions_by_item. rewrite !Hk.
  rewrite <- Hl in Hser, Hfail.
  split; apply (fetch_loop_error net pages code body text); assumption.
Qed.

(** C7: if the answer to some page request, whatever the request, stops the
    loop (no truthy [nextCursor], or an error), both fetches terminate within
    that many iterations; and the number of iterations has no bound other
    than the server's cursors: for every [n], the server [cursor_net n]
    keeps the loop of each fetch going for [n + 1] pages: [n] iterations
    run out, [n + 1] return all the pages. *)
Theorem pagination_terminates_unbounded net cfg item_id log N :
  (forall req, page_continues (net (S (length log) + N)%nat req) = false) ->
  (forall fuel, (N < fuel)%nat ->
     fst (fetch_accounts_by_item net cfg fuel item_id log) <> RFuel /\
     fst (fetch_transactions_by_item net cfg fuel item_id log) <> RFuel) /\
  (forall n,
     fst (fetch_accounts_by_item (cursor_net n) demo_cfg n item_id []) = RFuel /\
     fst (fetch_accounts_by_item (cursor_net n) demo_cfg (S n) item_id [])
       = ROk (repeat (JStr "x") (S n)) /\
     fst (fetch_transactions_by_item (cursor_net n) demo_cfg n item_id []) = RFuel /\
     fst (fetch_transactions_by_item (cursor_net n) demo_cfg (S n) item_id [])
       = ROk (repeat (JStr "x") (S n))).
Proof.
  intros Hstop. split.
  - intros fuel Hf.
    pose proof (get_pluggy_access_token_shape net cfg log) as Hsh.
    unfold fetch_accounts_by_item, fetch_transactions_by_item, get_pluggy_headers.
    unfold bind at 1 3.
    unfold bind at 1 2.
    destruct (get_pluggy_access_token net cfg log) as [[tok|e|] log'].
    + rewrite <- Hsh in Hstop. cbn.
      split; apply (fetch_loop_terminates net N); assumption.
    + split; discriminate.
    + contradiction.
  - intros n.
    assert (Ha : auth_ok (cursor_net n) (length (@nil http_req))).
    { intros req. exists auth_resp, [("accessToken", JStr "tok")]. repeat split. }
    destruct (get_pluggy_headers_ok (cursor_net n) demo_cfg [] eq_refl Ha) as [tok [log' [Hl Hk]]].
    unfold fetch_accounts_by_item, fetch_transactions_by_item. rewrite !Hk.
    pose proof (cursor_net_serves n) as Hser.
    replace 1%nat with (length log') in Hser by (rewrite Hl; reflexivity).
    split; [|split; [|split]].
    + apply (fetch_loop_out_of_fuel _ (repeat [JStr "x"] n)); [exact Hser|].
      rewrite repeat_length. lia.
    + destruct (fetch_loop_pages (cursor_net n) (repeat [JStr "x"] n) [JStr "x"] (S n)
                  (PLUGGY_BASE_URL ++ "/accounts") tok 30 MsgListAccounts
                  [("itemId", JStr item_id); ("pageSize", JNum 100)] [] JNull log' Hser)
        as [log'' [Heq _]].
      * intros req. rewrite Hl. apply cursor_net_last.
      * rewrite repeat_length. lia.
      * rewrite Heq. simpl app at 1. rewrite concat_repeat_single. reflexivity.
    + apply (fetch_loop_out_of_fuel _ (repeat [JStr "x"] n)); [exact Hser|].
      rewrite repeat_length. lia.
    + destruct (fetch_loop_pages (cursor_net n) (repeat [JStr "x"] n) [JStr "x"] (S n)
                  (PLUGGY_BASE_URL ++ "/transactions") tok 60 MsgListTransactions
                  [("itemId", JStr item_id); ("pageSize", JNum 500)] [] JNull log' Hser)
        as [log'' [Heq _]].
      * intros req. rewrite Hl. apply cursor_net_last.
      * rewrite repeat_length. lia.
      * rewrite Heq. simpl app at 1. rewrite concat_repeat_single. reflexivity.
Qed.

(** ** Credentials *)

(** C6: with a client identifier or a client secret unset (or empty), both
    [get_pluggy_access_token] and [create_connect_token] raise the
    configuration [RuntimeError] without sending any request: the log of
    requests is unchanged. *)
Theorem missing_credentials_no_request net cfg user_id log :
  creds_set cfg = false ->
  get_pluggy_access_token net cfg log = (RErr (RuntimeError MsgNotConfigured), log) /\
  create_connect_token net cfg user_id log = (RErr (RuntimeError MsgNotConfigured), log).
Proof.
  intros Hc. unfold creds_set in Hc.
  unfold get_pluggy_access_token, create_connect_token.
  destruct (env_truthy (PLUGGY_CLIENT_ID cfg)), (env_truthy (PLUGGY_CLIENT_SECRET cfg));
    try discriminate; split; reflexivity.
Qed.

(** ** Health *)

(** C8: GET /health returns [{"status": "ok"}], sending no request, for
    every invocation. *)
Theorem health_always_ok log : health log = (ROk (JObj [("status", JStr "ok")]), log).
Proof. reflexivity. Qed.

(** ** Lemmas on the aggregation *)

Lemma py_float_not_fuel p v : py_float p v <> RFuel.
Proof. destruct v; cbn; try discriminate. destruct (p s); discriminate. Qed.

Lemma account_balance_not_fuel p acc : account_balance p acc <> RFuel.
Proof.
  destruct acc; cbn; try discriminate.
  destruct (py_or (dict_get_default kvs "balance" JNull) (JObj [])); apply py_float_not_fuel.
Qed.

Lemma tx_amount_not_fuel p tx : tx_amount p tx <> RFuel.
Proof. destruct tx; cbn; try discriminate. apply py_float_not_fuel. Qed.

Lemma sum_balances_from_spec p accounts : forall t0,
  match map_res (account_balance p) accounts with
  | ROk vs => sum_balances_from p t0 accounts = ROk (fold_left Qplus vs t0)
  | RErr e => sum_balances_from p t0 accounts = RErr e
  | RFuel => False
  end.
Proof.
  induction accounts as [|acc rest IH]; intros t0; [reflexivity|].
  cbn [map_res sum_balances_from].
  destruct (account_balance p acc) as [v|e|] eqn:Hv; cbn; [|reflexivity|exact (account_balance_not_fuel p acc Hv)].
  specialize (IH (t0 + v)).
  destruct (map_res (account_balance p) rest); cbn; assumption.
Qed.

Lemma Qltb_true x y : Qltb x y = true <-> x < y.
Proof.
  unfold Qltb. rewrite negb_true_iff. split; intros H.
  - apply Qnot_le_lt. intros Hle. apply Qle_bool_iff in Hle. congruence.
  - destruct (Qle_bool y x) eqn:E; [|reflexivity].
    apply Qle_bool_iff in E. exfalso. apply (Qlt_not_le _ _ H E).
Qed.

Lemma Qltb_false x y : Qltb x y = false <-> y <= x.
Proof.
  unfold Qltb. rewrite negb_false_iff. apply Qle_bool_iff.
Qed.

Lemma flow_totals_from_spec p transactions : forall e0 s0,
  match map_res (tx_amount p) transactions with
  | ROk amounts =>
      flow_totals_from p e0 s0 transactions
        = ROk (fold_left Qplus (filter (Qltb 0) amounts) e0,
               fold_left Qplus (filter (fun a => Qltb a 0) amounts) s0)
  | RErr e => flow_totals_from p e0 s0 transactions = RErr e
  | RFuel => False
  end.
Proof.
  induction transactions as [|tx rest IH]; intros e0 s0; [reflexivity|].
  cbn [map_res flow_totals_from].
  destruct (tx_amount p tx) as [a|e|] eqn:Ha; cbn;
    [|reflexivity|exact (tx_amount_not_fuel p tx Ha)].
  destruct (Qltb 0 a) eqn:Hpos.
  - assert (Hneg : Qltb a 0 = false).
    { apply Qltb_false. apply Qltb_true in Hpos. apply Qlt_le_weak. exact Hpos. }
    specialize (IH (e0 + a) s0).
    destruct (map_res (tx_amount p) rest); cbn; [rewrite Hpos, Hneg|..]; assumption.
  - destruct (Qltb a 0) eqn:Hneg.
    + specialize (IH e0 (s0 + a)).
      destruct (map_res (tx_amount p) rest); cbn; [rewrite Hpos, Hneg|..]; assumption.
    + specialize (IH e0 s0).
      destruct (map_res (tx_amount p) rest); cbn; [rewrite Hpos, Hneg|..]; assumption.
Qed.

Lemma py_or_falsy a b : truthy a = false -> py_or a b = b.
Proof. unfold py_or. intros H. now rewrite H. Qed.

Lemma py_or_truthy a b : truthy a = true -> py_or a b = a.
Proof. unfold py_or. intros H. now rewrite H. Qed.

Lemma account_balance_falsy p kvs :
  truthy (dict_get_default kvs "balance" JNull) = false -> account_balance p (JObj kvs) = ROk 0.
Proof. intros H. unfold account_balance. rewrite (py_or_falsy _ _ H). reflexivity. Qed.

Lemma tx_amount_falsy p kvs :
  truthy (dict_get_default kvs "amount" JNull) = false -> tx_amount p (JObj kvs) = ROk 0.
Proof. intros H. unfold tx_amount. rewrite (py_or_falsy _ _ H). reflexivity. Qed.

Lemma account_balance_nested p kvs b :
  dict_get "balance" kvs = Some (JObj b) ->
  account_balance p (JObj kvs)
    = py_float p (py_or (py_or (dict_get_default b "current" JNull)
                               (dict_get_default b "available" JNull)) (JNum 0)).
Proof.
  intros Hb. unfold account_balance, dict_get_default at 1. rewrite Hb.
  destruct b as [|kv b]; reflexivity.
Qed.

Lemma account_balance_scalar p kvs v :
  dict_get_default kvs "balance" JNull = v -> truthy v = true -> (forall b, v <> JObj b) ->
  account_balance p (JObj kvs) = py_float p v.
Proof.
  intros Hv Ht Hno. unfold account_balance. rewrite Hv, (py_or_truthy _ _ Ht).
  destruct v; try (exfalso; exact (Hno kvs0 eq_refl)); rewrite (py_or_truthy _ _ Ht); reflexivity.
Qed.

Lemma get_snapshot_ok_inv p net cfg fuel user_id item_id log snap :
  fst (get_snapshot p net cfg fuel user_id item_id log) = ROk snap ->
  exists accounts transactions saldo e s,
    sum_balances p accounts = ROk saldo /\ flow_totals p transactions = ROk (e, s) /\
    snap = snapshot_json user_id item_id saldo e s accounts transactions.
Proof.
  unfold get_snapshot, try_except, bind, lift, raise, ret.
  destruct (fetch_accounts_by_item net cfg fuel item_id log) as [[accounts|e|] l1]; cbn; try discriminate.
  destruct (sum_balances p accounts) as [saldo|e|] eqn:Hs; cbn; try discriminate.
  destruct (fetch_transactions_by_item net cfg fuel item_id l1) as [[transactions|e|] l2]; cbn; try discriminate.
  destruct (flow_totals p transactions) as [[e s]|e|] eqn:Hf; cbn; try discriminate.
  intros H. injection H as <-. exists accounts, transactions, saldo, e, s. auto.
Qed.

(** ** Snapshot totals *)

Lemma py_float_ieee_not_fuel p v : py_float_ieee p v <> RFuel.
Proof.
  destruct v; cbn; try discriminate. unfold float_of_str_ieee.
  destruct (special_float s); [discriminate|]. destruct (p s); discriminate.
Qed.

Lemma tx_amount_ieee_not_fuel p tx : tx_amount_ieee p tx <> RFuel.
Proof. destruct tx; cbn; try discriminate. apply py_float_ieee_not_fuel. Qed.

Lemma pf_ltb_asym x y : pf_ltb x y = true -> pf_ltb y x = false.
Proof.
  destruct x, y; cbn; try discriminate; try reflexivity.
  intros H. apply Qltb_true in H. apply Qltb_false. apply Qlt_le_weak. exact H.
Qed.

Lemma flow_totals_from_ieee_spec p transactions : forall e0 s0,
  match map_res (tx_amount_ieee p) transactions with
  | ROk amounts =>
      flow_totals_from_ieee p e0 s0 transactions
        = ROk (fold_left pf_add (filter (pf_ltb (PFin 0)) amounts) e0,
               fold_left pf_add (filter (fun a => pf_ltb a (PFin 0)) amounts) s0)
  | RErr e => flow_totals_from_ieee p e0 s0 transactions = RErr e
  | RFuel => False
  end.
Proof.
  induction transactions as [|tx rest IH]; intros e0 s0; [reflexivity|].
  cbn [map_res flow_totals_from_ieee].
  destruct (tx_amount_ieee p tx) as [a|e|] eqn:Ha; cbn [rbind];
    [|reflexivity|exact (tx_amount_ieee_not_fuel p tx Ha)].
  destruct (pf_ltb (PFin 0) a) eqn:Hpos.
  - pose proof (pf_ltb_asym _ _ Hpos) as Hneg.
    specialize (IH (pf_add e0 a) s0).
    destruct (map_res (tx_amount_ieee p) rest); cbn [rbind filter fold_left]; [rewrite Hpos, Hneg|..]; assumption.
  - destruct (pf_ltb a (PFin 0)) eqn:Hneg.
    + specialize (IH e0 (pf_add s0 a)).
      destruct (map_res (tx_amount_ieee p) rest); cbn [rbind filter fold_left]; [rewrite Hpos, Hneg|..]; assumption.
    + specialize (IH e0 s0).
      destruct (map_res (tx_amount_ieee p) rest); cbn [rbind filter fold_left]; [rewrite Hpos, Hneg|..]; assumption.
Qed.

(** A value [>= 0] or [inf]; a value [<= 0] or [-inf]. *)
Definition pf_nonneg (x : pyfloat) : Prop := x = PInf \/ exists q, x = PFin q /\ 0 <= q.
Definition pf_nonpos (x : pyfloat) : Prop := x = NInf \/ exists q, x = PFin q /\ q <= 0.

Lemma fold_pos_nonneg_ieee l : forall e0, pf_nonneg e0 ->
  pf_nonneg (fold_left pf_add (filter (pf_ltb (PFin 0)) l) e0).
Proof.
  induction l as [|a l IH]; intros e0 He; [exact He|].
  cbn [filter]. destruct (pf_ltb (PFin 0) a) eqn:Hp; cbn [fold_left]; apply IH; [|exact He].
  destruct a as [q| | |]; cbn in Hp; try discriminate;
    destruct He as [->|[q0 [-> Hq0]]]; cbn; try (left; reflexivity).
  right. exists (q0 + q). split; [reflexivity|].
  apply Qltb_true in Hp. apply (Qle_trans _ q0); [exact Hq0|].
  rewrite <- (Qplus_0_r q0) at 1. apply Qplus_le_r. apply Qlt_le_weak. exact Hp.
Qed.

Lemma fold_neg_nonpos_ieee l : forall s0, pf_nonpos s0 ->
  pf_nonpos (fold_left pf_add (filter (fun a => pf_ltb a (PFin 0)) l) s0).
Proof.
  induction l as [|a l IH]; intros s0 Hs; [exact Hs|].
  cbn [filter]. destruct (pf_ltb a (PFin 0)) eqn:Hn; cbn [fold_left]; apply IH; [|exact Hs].
  destruct a as [q| | |]; cbn in Hn; try discriminate;
    destruct Hs as [->|[q0 [-> Hq0]]]; cbn; try (left; reflexivity).
  right. exists (q0 + q). split; [reflexivity|].
  apply Qltb_true in Hn. apply (Qle_trans _ q0); [|exact Hq0].
  rewrite <- (Qplus_0_r q0) at 2. apply Qplus_le_r. apply Qlt_le_weak. exact Hn.
Qed.

Lemma pf_add_self_eqb e s : pf_nonneg e -> pf_nonpos s ->
  (pf_eqb (pf_add e s) (pf_add e s) = false <-> e = PInf /\ s = NInf).
Proof.
  intros [->|[q [-> _]]] [->|[r [-> _]]]; cbn.
  - split; auto.
  - split; [discriminate|intros [_ H]; discriminate].
  - split; [discriminate|intros [H _]; discriminate].
  - rewrite (proj2 (Qeq_bool_iff (q + r) (q + r)) (Qeq_refl _)).
    split; [discriminate|intros [H _]; discriminate].
Qed.

Lemma get_snapshot_ieee_ok_inv p net cfg fuel user_id item_id log r :
  fst (get_snapshot_ieee p net cfg fuel user_id item_id log) = ROk r ->
  exists accounts log1 transactions log2 saldo e s,
    fetch_accounts_by_item net cfg fuel item_id log = (ROk accounts, log1) /\
    sum_balances_ieee p accounts = ROk saldo /\
    fetch_transactions_by_item net cfg fuel item_id log1 = (ROk transactions, log2) /\
    flow_totals_ieee p transactions = ROk (e, s) /\
    r = (saldo, e, s, pf_add e s).
Proof.
  unfold get_snapshot_ieee, try_except, bind, lift, raise, ret.
  destruct (fetch_accounts_by_item net cfg fuel item_id log) as [[accounts|e|] l1] eqn:Ha; cbn;
    try discriminate.
  destruct (sum_balances_ieee p accounts) as [saldo|e|] eqn:Hs; cbn; try discriminate.
  destruct (fetch_transactions_by_item net cfg fuel item_id l1) as [[transactions|e|] l2] eqn:Ht;
    cbn; try discriminate.
  destruct (flow_totals_ieee p transactions) as [[e s]|e|] eqn:Hf; cbn; try discriminate.
  intros H. injection H as <-. exists accounts, l1, transactions, l2, saldo, e, s. auto.
Qed.



(** ** Total balance *)

(** C3 (as stated): an unusable balance does not contribute zero.  An
    account whose balance is the string ["abc"] makes [get_snapshot] answer
    HTTP 500 ([float("abc")] raises [ValueError]), and a balance [[1]]
    raises [TypeError]. *)
Lemma unusable_balance_fails_snapshot :
  fst (get_snapshot decimal_float_of_string (snapshot_net [acct (JStr "abc")] [])
         demo_cfg 1 "u" "i" []) = RErr (HTTPException 500 ValueError) /\
  account_balance decimal_float_of_string (acct (JList [JNum 1])) = RErr TypeError.
Proof. split; vm_compute; reflexivity. Qed.

(** C3 (amended): in every snapshot built, [saldo_total_contas] is the
    left-to-right sum of the per-account values, every one of which
    converted; a missing or falsy balance gives 0; a nested balance gives
    [float(current or available or 0)]; the accounts
    [[{balance: 100}, {balance: {current: 50}}]] total 150; a truthy
    non-object balance gives [float(balance)], so one that [float] rejects
    raises instead of giving 0. *)
Theorem snapshot_total_balance p net cfg fuel user_id item_id log snap :
  fst (get_snapshot p net cfg fuel user_id item_id log) = ROk snap ->
  (exists accounts balances transactions e s,
     map_res (account_balance p) accounts = ROk balances /\
     snapshot_saldo snap = Some (sum_list balances) /\
     snap = snapshot_json user_id item_id (sum_list balances) e s accounts transactions) /\
  (forall kvs, truthy (dict_get_default kvs "balance" JNull) = false ->
     account_balance p (JObj kvs) = ROk 0) /\
  (forall kvs b, dict_get "balance" kvs = Some (JObj b) ->
     account_balance p (JObj kvs)
       = py_float p (py_or (py_or (dict_get_default b "current" JNull)
                                  (dict_get_default b "available" JNull)) (JNum 0))) /\
  sum_balances p demo_accounts = ROk 150 /\
  (forall kvs v, dict_get_default kvs "balance" JNull = v -> truthy v = true ->
     (forall b, v <> JObj b) -> account_balance p (JObj kvs) = py_float p v).
Proof.
  intros H. split; [|split; [|split; [|split]]].
  - destruct (get_snapshot_ok_inv p net cfg fuel user_id item_id log snap H)
      as [accounts [transactions [saldo [e [s [Hs [Hf ->]]]]]]].
    pose proof (sum_balances_from_spec p accounts 0) as Hspec. unfold sum_balances in Hs.
    destruct (map_res (account_balance p) accounts) as [balances|err|] eqn:Hm;
      [|congruence|contradiction].
    rewrite Hs in Hspec. injection Hspec as ->.
    exists accounts, balances, transactions, e, s. auto.
  - apply account_balance_falsy.
  - apply account_balance_nested.
  - reflexivity.
  - apply account_balance_scalar.
Qed.

(** ** Malformed numeric fields *)



(** ** Connect token *)

(** C9: when the upstream payload is a dictionary, the [connectToken] that
    the handler returns is [accessToken] when that field is truthy, and
    otherwise [connectToken] (null when absent); with both fields absent it
    is null, which [ConnectTokenResponse] (a required [str]) does not
    accept. *)
Theorem connect_token_field_choice net cfg user_id log kvs :
  fst (create_connect_token net cfg user_id log) = ROk (JObj kvs) ->
  let access := dict_get_default kvs "accessToken" JNull in
  let connect := dict_get_default kvs "connectToken" JNull in
  fst (api_create_connect_token net cfg user_id log)
    = ROk (JObj [("connectToken", if truthy access then access else connect); ("raw", JObj kvs)]) /\
  (dict_get "accessToken" kvs = None -> dict_get "connectToken" kvs = None ->
     fst (api_create_connect_token net cfg user_id log)
       = ROk (JObj [("connectToken", JNull); ("raw", JObj kvs)]) /\
     ConnectTokenResponse_valid (JObj [("connectToken", JNull); ("raw", JObj kvs)]) = false).
Proof.
  intros Hc access connect.
  assert (Happ : fst (api_create_connect_token net cfg user_id log)
                 = ROk (JObj [("connectToken", if truthy access then access else connect);
                              ("raw", JObj kvs)])).
  { unfold api_create_connect_token, try_except, bind, get_m, ret.
    destruct (create_connect_token net cfg user_id log) as [r l]. cbn in Hc. subst r. cbn.
    subst access connect. destruct (truthy (dict_get_default kvs "accessToken" JNull)); reflexivity. }
  split; [exact Happ|].
  intros Ha Hct. rewrite Happ. subst access connect.
  unfold dict_get_default. rewrite Ha, Hct. split; reflexivity.
Qed.

(** ** Nested balances *)

(** C10: for a nested balance, a falsy [current] (such as 0) is skipped in
    favour of [available]: [{current: 0, available: 50}] contributes 50 to
    the total balance. *)
Theorem nested_balance_falsy_current p kvs b :
  dict_get "balance" kvs = Some (JObj b) ->
  truthy (dict_get_default b "current" JNull) = false ->
  account_balance p (JObj kvs)
    = py_float p (py_or (dict_get_default b "available" JNull) (JNum 0)) /\
  sum_balances p [acct (JObj [("current", JNum 0); ("available", JNum 50)])] = ROk 50.
Proof.
  intros Hb Hc. split; [|reflexivity].
  rewrite (account_balance_nested p kvs b Hb), (py_or_falsy _ _ Hc). reflexivity.
Qed.

(** ** Witnesses: the hypotheses of the theorems hold on concrete inputs *)

Lemma two_pages_auth : auth_ok two_pages_net 0.
Proof. intros req. exists auth_resp, [("accessToken", JStr "tok")]. repeat split. Defined.

Lemma two_pages_first : serves_more two_pages_net 1 [[A; B]].
Proof.
  intros i req Hi. destruct i as [|i]; [|simpl in Hi; lia].
  exists (page_resp [A; B] (JStr "c1")). split; [reflexivity|].
  split; [reflexivity|]. eexists. split; [reflexivity|]. split; reflexivity.
Defined.

Lemma fetch_by_item_concat_pages_witness :
  creds_set demo_cfg = true /\ auth_ok two_pages_net 0 /\
  serves_more two_pages_net 1 [[A; B]] /\
  (forall req, exists r, two_pages_net 2 req = Some r /\ page_ok r [C] false) /\
  (1 < 2)%nat /\
  fst (fetch_accounts_by_item two_pages_net demo_cfg 2 "item" []) = ROk (concat ([[A; B]] ++ [[C]])) /\
  fst (fetch_transactions_by_item two_pages_net demo_cfg 2 "item" []) = ROk (concat ([[A; B]] ++ [[C]])).
Proof.
  assert (Hlast : forall req, exists r, two_pages_net 2 req = Some r /\ page_ok r [C] false).
  { intros req. exists (page_resp [C] JNull). split; [reflexivity|].
    split; [reflexivity|]. eexists. split; [reflexivity|]. split; reflexivity. }
  split; [reflexivity|]. split; [exact two_pages_auth|]. split; [exact two_pages_first|].
  split; [exact Hlast|]. split; [lia|].
  apply (fetch_by_item_concat_pages two_pages_net demo_cfg "item" [[A; B]] [C] 2 []).
  - reflexivity.
  - exact two_pages_auth.
  - exact two_pages_first.
  - exact Hlast.
  - simpl. lia.
Defined.

Lemma failing_first : serves_more failing_net 1 [[A; B]].
Proof.
  intros i req Hi. destruct i as [|i]; [|simpl in Hi; lia].
  exists (page_resp [A; B] (JStr "c1")). split; [reflexivity|].
  split; [reflexivity|]. eexists. split; [reflexivity|]. split; reflexivity.
Defined.

Lemma fetch_by_item_error_page_witness :
  creds_set demo_cfg = true /\ auth_ok failing_net 0 /\
  serves_more failing_net 1 [[A; B]] /\
  (forall req, failing_net 2 req = Some (mk_resp 503 None "Service Unavailable")) /\
  (400 <= 503)%Z /\ (1 < 2)%nat /\
  fst (fetch_accounts_by_item failing_net demo_cfg 2 "item" [])
    = RErr (RuntimeError (MsgListAccounts 503 "Service Unavailable")) /\
  fst (fetch_transactions_by_item failing_net demo_cfg 2 "item" [])
    = RErr (RuntimeError (MsgListTransactions 503 "Service Unavailable")).
Proof.
  assert (Ha : auth_ok failing_net 0).
  { intros req. exists auth_resp, [("accessToken", JStr "tok")]. repeat split. }
  split; [reflexivity|]. split; [exact Ha|]. split; [exact failing_first|].
  split; [intros; reflexivity|]. split; [lia|]. split; [lia|].
  apply (fetch_by_item_error_page failing_net demo_cfg "item" [[A; B]] 503 None
           "Service Unavailable" 2 []).
  - reflexivity.
  - exact Ha.
  - exact failing_first.
  - intros; reflexivity.
  - lia.
  - simpl. lia.
Defined.

Lemma pagination_terminates_unbounded_witness :
  (forall req, page_continues (two_pages_net 2 req) = false) /\
  (forall fuel, (1 < fuel)%nat ->
     fst (fetch_accounts_by_item two_pages_net demo_cfg fuel "item" []) <> RFuel /\
     fst (fetch_transactions_by_item two_pages_net demo_cfg fuel "item" []) <> RFuel) /\
  (forall n,
     fst (fetch_accounts_by_item (cursor_net n) demo_cfg n "item" []) = RFuel /\
     fst (fetch_accounts_by_item (cursor_net n) demo_cfg (S n) "item" [])
       = ROk (repeat (JStr "x") (S n)) /\
     fst (fetch_transactions_by_item (cursor_net n) demo_cfg n "item" []) = RFuel /\
     fst (fetch_transactions_by_item (cursor_net n) demo_cfg (S n) "item" [])
       = ROk (repeat (JStr "x") (S n))).
Proof.
  split; [intros; reflexivity|].
  apply (pagination_terminates_unbounded two_pages_net demo_cfg "item" [] 1).
  intros; reflexivity.
Defined.

Lemma missing_credentials_no_request_witness :
  creds_set (mk_config None (Some "secret")) = false /\
  get_pluggy_access_token two_pages_net (mk_config None (Some "secret")) []
    = (RErr (RuntimeError MsgNotConfigured), []) /\
  create_connect_token two_pages_net (mk_config None (Some "secret")) "user" []
    = (RErr (RuntimeError MsgNotConfigured), []).
Proof.
  split; [reflexivity|].
  apply (missing_credentials_no_request two_pages_net (mk_config None (Some "secret")) "user" []).
  reflexivity.
Defined.


Lemma snapshot_total_balance_witness :
  fst (get_snapshot decimal_float_of_string (snapshot_net demo_accounts demo_transactions)
         demo_cfg 1 "u" "i" []) = ROk demo_snapshot /\
  (exists accounts balances transactions e s,
     map_res (account_balance decimal_float_of_string) accounts = ROk balances /\
     snapshot_saldo demo_snapshot = Some (sum_list balances) /\
     demo_snapshot = snapshot_json "u" "i" (sum_list balances) e s accounts transactions) /\
  (forall kvs, truthy (dict_get_default kvs "balance" JNull) = false ->
     account_balance decimal_float_of_string (JObj kvs) = ROk 0) /\
  (forall kvs b, dict_get "balance" kvs = Some (JObj b) ->
     account_balance decimal_float_of_string (JObj kvs)
       = py_float decimal_float_of_string
           (py_or (py_or (dict_get_default b "current" JNull)
                         (dict_get_default b "available" JNull)) (JNum 0))) /\
  sum_balances decimal_float_of_string demo_accounts = ROk 150 /\
  (forall kvs v, dict_get_default kvs "balance" JNull = v -> truthy v = true ->
     (forall b, v <> JObj b) ->
     account_balance decimal_float_of_string (JObj kvs) = py_float decimal_float_of_string v).
Proof.
  split; [vm_compute; reflexivity|].
  apply (snapshot_total_balance decimal_float_of_string
           (snapshot_net demo_accounts demo_transactions) demo_cfg 1 "u" "i" []).
  vm_compute. reflexivity.
Defined.


Lemma connect_token_field_choice_witness :
  fst (create_connect_token connect_net demo_cfg "user" []) = ROk (JObj [("id", JStr "ct-1")]) /\
  let kvs := [("id", JStr "ct-1")] in
  let access := dict_get_default kvs "accessToken" JNull in
  let connect := dict_get_default kvs "connectToken" JNull in
  fst (api_create_connect_token connect_net demo_cfg "user" [])
    = ROk (JObj [("connectToken", if truthy access then access else connect); ("raw", JObj kvs)]) /\
  (dict_get "accessToken" kvs = None -> dict_get "connectToken" kvs = None ->
     fst (api_create_connect_token connect_net demo_cfg "user" [])
       = ROk (JObj [("connectToken", JNull); ("raw", JObj kvs)]) /\
     ConnectTokenResponse_valid (JObj [("connectToken", JNull); ("raw", JObj kvs)]) = false).
Proof.
  split; [vm_compute; reflexivity|].
  exact (connect_token_field_choice connect_net demo_cfg "user" [] [("id", JStr "ct-1")]
           ltac:(vm_compute; reflexivity)).
Defined.

Lemma nested_balance_falsy_current_witness :
  dict_get "balance" [("balance", JObj [("current", JNum 0); ("available", JNum 50)])]
    = Some (JObj [("current", JNum 0); ("available", JNum 50)]) /\
  truthy (dict_get_default [("current", JNum 0); ("available", JNum 50)] "current" JNull) = false /\
  account_balance decimal_float_of_string
    (JObj [("balance", JObj [("current", JNum 0); ("available", JNum 50)])])
    = py_float decimal_float_of_string
        (py_or (dict_get_default [("current", JNum 0); ("available", JNum 50)] "available" JNull)
               (JNum 0)) /\
  sum_balances decimal_float_of_string [acct (JObj [("current", JNum 0); ("available", JNum 50)])]
    = ROk 50.
Proof.
  split; [reflexivity|]. split; [reflexivity|].
  apply (nested_balance_falsy_current decimal_float_of_string
           [("balance", JObj [("current", JNum 0); ("available", JNum 50)])]
           [("current", JNum 0); ("available", JNum 50)]); reflexivity.
Defined.

(** ** Further properties of the code *)

Lemma dict_get_app_last k v kvs : dict_get k (kvs ++ [(k, v)])%list = Some v.
Proof.
  induction kvs as [|[k' v'] r IH]; cbn.
  - now rewrite String.eqb_refl.
  - now rewrite IH.
Qed.

Lemma dict_get_app_other k k' v kvs :
  k <> k' -> dict_get k (kvs ++ [(k', v)])%list = dict_get k kvs.
Proof.
  intros Hne. induction kvs as [|[k0 v0] r IH]; cbn.
  - apply String.eqb_neq in Hne. now rewrite Hne.
  - now rewrite IH.
Qed.

Lemma dict_get_absent k kvs :
  existsb (fun kv => String.eqb k (fst kv)) kvs = false -> dict_get k kvs = None.
Proof.
  induction kvs as [|[k0 v0] r IH]; cbn; [reflexivity|].
  intros H. apply orb_false_iff in H as [H1 H2]. rewrite IH by exact H2. now rewrite H1.
Qed.

Lemma dict_get_set_same k v kvs : dict_get k (dict_set k v kvs) = Some v.
Proof.
  unfold dict_set. destruct (existsb (fun kv => String.eqb k (fst kv)) kvs) eqn:E;
    [|apply dict_get_app_last].
  induction kvs as [|[k0 v0] r IH]; cbn in *; [discriminate|].
  destruct (String.eqb k k0) eqn:Ek; cbn.
  - destruct (existsb (fun kv => String.eqb k (fst kv)) r) eqn:Er.
    + now rewrite IH.
    + replace (dict_get k (map (fun kv => if String.eqb k (fst kv) then (k, v) else kv) r))
        with (@None json).
      * now rewrite String.eqb_refl.
      * symmetry. apply dict_get_absent. rewrite <- Er.
        induction r as [|[k1 v1] r' IHr]; cbn; [reflexivity|].
        destruct (String.eqb k k1) eqn:E1; cbn; [now rewrite String.eqb_refl|].
        rewrite E1. cbn in Er. rewrite E1 in Er. cbn in Er. now apply IHr.
  - rewrite (IH E). reflexivity.
Qed.

Lemma dict_get_set_other k k' v kvs :
  k <> k' -> dict_get k (dict_set k' v kvs) = dict_get k kvs.
Proof.
  intros Hne. unfold dict_set.
  destruct (existsb (fun kv => String.eqb k' (fst kv)) kvs); [|now apply dict_get_app_other].
  induction kvs as [|[k0 v0] r IH]; cbn; [reflexivity|].
  rewrite IH. destruct (String.eqb k' k0) eqn:E; cbn; [|reflexivity].
  apply String.eqb_eq in E. subst k0.
  apply String.eqb_neq in Hne. now rewrite Hne.
Qed.

(** One iteration of the loop: it stops after its request, or goes on with
    the [nextCursor] of a dictionary answer. *)
Lemma fetch_loop_step net fuel url tok t err params acc cursor log r log' :
  fetch_loop net (S fuel) url tok t err params acc cursor log = (r, log') ->
  let params1 := if truthy cursor then dict_set "cursor" cursor params else params in
  let q0 := mk_req "GET" url (Some tok) params1 None t in
  log' = (log ++ [q0])%list \/
  exists resp kvs acc',
    net (length log) q0 = Some resp /\ resp_json resp = Some (JObj kvs) /\
    truthy (dict_get_default kvs "nextCursor" JNull) = true /\
    fetch_loop net fuel url tok t err params1 acc' (dict_get_default kvs "nextCursor" JNull)
      (log ++ [q0])%list = (r, log').
Proof.
  intros Hrun params1 q0. cbn [fetch_loop] in Hrun. fold params1 q0 in Hrun.
  unfold bind at 1, send in Hrun.
  destruct (net (length log) q0) as [resp|] eqn:Hnet; cbn in Hrun;
    [|injection Hrun as _ <-; now left].
  destruct (400 <=? status_code resp)%Z; cbn in Hrun; [injection Hrun as _ <-; now left|].
  unfold resp_json_m in Hrun.
  destruct (resp_json resp) as [j|] eqn:Hj; cbn in Hrun; [|injection Hrun as _ <-; now left].
  destruct j; cbn in Hrun; try (injection Hrun as _ <-; now left).
  destruct (py_iter (dict_get_default kvs "results" (JList []))) eqn:Hi; cbn in Hrun;
    try (injection Hrun as _ <-; now left).
  destruct (truthy (dict_get_default kvs "nextCursor" JNull)) eqn:Hc; cbn in Hrun;
    [|injection Hrun as _ <-; now left].
  right. eexists _, _, _. repeat split; eassumption.
Qed.

Lemma fetch_loop_log net : forall fuel url tok t err params acc cursor log r log' P0,
  (forall k, k <> "cursor" -> dict_get k params = dict_get k P0) ->
  fetch_loop net fuel url tok t err params acc cursor log = (r, log') ->
  exists new, log' = (log ++ new)%list /\
    page_requests net (length log) url tok t P0 new /\
    (forall q, nth_error new 0 = Some q ->
       req_params q = if truthy cursor then dict_set "cursor" cursor params else params).
Proof.
  induction fuel as [|fuel IH];
    intros url tok t err params acc cursor log r log' P0 HP Hrun.
  - cbn in Hrun. injection Hrun as _ <-. exists []. rewrite app_nil_r.
    split; [reflexivity|]. split; [split|].
    + intros q [].
    + intros [|i] q q' H; discriminate.
    + intros q H; discriminate.
  - assert (HP1 : forall k, k <> "cursor" ->
              dict_get k (if truthy cursor then dict_set "cursor" cursor params else params)
              = dict_get k P0).
    { intros k Hk. destruct (truthy cursor); [rewrite dict_get_set_other by exact Hk|]; auto. }
    destruct (fetch_loop_step _ _ _ _ _ _ _ _ _ _ _ _ Hrun) as [->|[resp [kvs [acc' [Hn [Hj [Hc Hrec]]]]]]].
    + eexists. split; [reflexivity|]. split; [split|].
      * intros q [<-|[]]. cbn. repeat split. exact HP1.
      * intros [|i] q q' H1 H2; discriminate.
      * intros q H. injection H as <-. reflexivity.
    + destruct (IH _ _ _ _ _ _ _ _ _ _ P0 HP1 Hrec) as [new [-> [[Hall Hchain] Hfirst]]].
      eexists. split; [rewrite <- app_assoc; reflexivity|]. split; [split|].
      * intros q [<-|Hin]; [cbn; repeat split; exact HP1|exact (Hall q Hin)].
      * intros [|i] q q' H1 H2.
        -- injection H1 as <-. exists resp, kvs. rewrite Nat.add_0_r.
           split; [exact Hn|]. split; [exact Hj|].
           cbn in H2. rewrite (Hfirst q' H2), Hc. apply dict_get_set_same.
        -- cbn in H1, H2. destruct (Hchain i q q' H1 H2) as [resp' [kvs' [Hn' Hrest]]].
           exists resp', kvs'. split; [|exact Hrest].
           rewrite <- Hn'. f_equal. rewrite length_app. simpl. lia.
      * intros q H. injection H as <-. reflexivity.
Qed.

Lemma get_pluggy_access_token_unset net cfg log :
  creds_set cfg = false ->
  get_pluggy_access_token net cfg log = (RErr (RuntimeError MsgNotConfigured), log).
Proof.
  unfold creds_set, get_pluggy_access_token. intros Hc.
  destruct (env_truthy (PLUGGY_CLIENT_ID cfg)), (env_truthy (PLUGGY_CLIENT_SECRET cfg));
    try discriminate; reflexivity.
Qed.

Lemma get_pluggy_access_token_set net cfg log :
  creds_set cfg = true ->
  get_pluggy_access_token net cfg log =
    (match net (length log) (auth_request cfg) with
     | None => RErr ConnectionError
     | Some resp =>
         if (400 <=? status_code resp)%Z
         then RErr (RuntimeError (MsgAuthFailed (status_code resp) (resp_text resp)))
         else match resp_json resp with
              | None => RErr JSONDecodeError
              | Some (JObj kvs) =>
                  if truthy (dict_get_default kvs "accessToken" JNull)
                  then ROk (dict_get_default kvs "accessToken" JNull)
                  else RErr (RuntimeError MsgNoAccessToken)
              | Some _ => RErr AttributeError
              end
     end, (log ++ [auth_request cfg])%list).
Proof.
  unfold creds_set. intros Hc. apply andb_prop in Hc as [H1 H2].
  unfold get_pluggy_access_token. rewrite H1, H2. cbn [negb orb].
  unfold resp_json_m, get_m, bind, send, raise, ret. fold (auth_request cfg).
  destruct (net (length log) (auth_request cfg)) as [resp|]; [|reflexivity].
  destruct (400 <=? status_code resp)%Z; [reflexivity|].
  destruct (resp_json resp) as [[| | | | |kvs]|]; try reflexivity.
  destruct (truthy (dict_get_default kvs "accessToken" JNull)); reflexivity.
Qed.

Lemma create_connect_token_set net cfg user_id log :
  creds_set cfg = true ->
  create_connect_token net cfg user_id log =
    (match net (length log) (connect_request cfg user_id) with
     | None => RErr ConnectionError
     | Some resp =>
         if (400 <=? status_code resp)%Z
         then RErr (RuntimeError (MsgConnectTokenFailed (status_code resp) (resp_text resp)))
         else match resp_json resp with
              | None => RErr JSONDecodeError
              | Some j => ROk j
              end
     end, (log ++ [connect_request cfg user_id])%list).
Proof.
  unfold creds_set. intros Hc. apply andb_prop in Hc as [H1 H2].
  unfold create_connect_token. rewrite H1, H2. cbn [negb orb].
  unfold resp_json_m, bind, send, raise, ret. fold (connect_request cfg user_id).
  destruct (net (length log) (connect_request cfg user_id)) as [resp|]; [|reflexivity].
  destruct (400 <=? status_code resp)%Z; [reflexivity|].
  destruct (resp_json resp); reflexivity.
Qed.

Lemma fetch_with_headers_log net cfg fuel url t err params log r log' :
  dict_get "cursor" params = None ->
  bind (get_pluggy_headers net cfg) (fun h => fetch_loop net fuel url h t err params [] JNull) log
    = (r, log') ->
  fetch_log net cfg log url t params log'.
Proof.
  intros Hnc Hrun. unfold get_pluggy_headers, bind in Hrun.
  destruct (creds_set cfg) eqn:Hc.
  - pose proof (get_pluggy_access_token_set net cfg log Hc) as Ea.
    destruct (get_pluggy_access_token net cfg log) as [ra la] eqn:Ea'.
    injection Ea as Hra Hla. subst la.
    destruct ra as [tok|e|].
    + cbn in Hrun.
      destruct (fetch_loop_log net _ _ _ _ _ _ _ _ _ _ _ params (fun k _ => eq_refl) Hrun)
        as [new [-> [Hpr Hfirst]]].
      right; right. split; [exact Hc|]. exists tok, new. split; [exact Ea'|].
      split; [rewrite <- app_assoc; reflexivity|]. split.
      * rewrite length_app in Hpr. simpl in Hpr. rewrite Nat.add_1_r in Hpr. exact Hpr.
      * intros q Hq. rewrite (Hfirst q Hq). exact Hnc.
    + cbn in Hrun. injection Hrun as _ <-. right; left. split; [exact Hc|].
      exists e. rewrite Ea'. auto.
    + destruct (net (length log) (auth_request cfg)) as [resp|]; [|discriminate].
      destruct (400 <=? status_code resp)%Z; [discriminate|].
      destruct (resp_json resp) as [[| | | | |kvs]|]; try discriminate.
      destruct (truthy (dict_get_default kvs "accessToken" JNull)); discriminate.
  - rewrite (get_pluggy_access_token_unset net cfg log Hc) in Hrun. cbn in Hrun.
    injection Hrun as _ <-. left. auto.
Qed.

Lemma fetch_accounts_log net cfg fuel item_id log r log' :
  fetch_accounts_by_item net cfg fuel item_id log = (r, log') ->
  fetch_log net cfg log (PLUGGY_BASE_URL ++ "/accounts") 30
    [("itemId", JStr item_id); ("pageSize", JNum 100)] log'.
Proof. apply fetch_with_headers_log. reflexivity. Qed.

Lemma fetch_transactions_log net cfg fuel item_id log r log' :
  fetch_transactions_by_item net cfg fuel item_id log = (r, log') ->
  fetch_log net cfg log (PLUGGY_BASE_URL ++ "/transactions") 60
    [("itemId", JStr item_id); ("pageSize", JNum 500)] log'.
Proof. apply fetch_with_headers_log. reflexivity. Qed.

(** Extra: with both credentials set, [get_pluggy_access_token] sends one
    request, the POST to /auth with [clientId] and [clientSecret]; a status
    [>= 400] raises the authentication error with that status and text; a
    dictionary answer without a truthy [accessToken] raises the missing
    token error; otherwise the token is returned. *)
Theorem get_pluggy_access_token_outcomes net cfg log resp :
  creds_set cfg = true ->
  net (length log) (auth_request cfg) = Some resp ->
  snd (get_pluggy_access_token net cfg log) = (log ++ [auth_request cfg])%list /\
  ((400 <= status_code resp)%Z ->
     fst (get_pluggy_access_token net cfg log)
       = RErr (RuntimeError (MsgAuthFailed (status_code resp) (resp_text resp)))) /\
  (forall kvs, (status_code resp < 400)%Z -> resp_json resp = Some (JObj kvs) ->
     fst (get_pluggy_access_token net cfg log)
       = if truthy (dict_get_default kvs "accessToken" JNull)
         then ROk (dict_get_default kvs "accessToken" JNull)
         else RErr (RuntimeError MsgNoAccessToken)).
Proof.
  intros Hc Hn. rewrite (get_pluggy_access_token_set net cfg log Hc), Hn. cbn [fst snd].
  split; [reflexivity|]. split.
  - intros Hs. replace (400 <=? status_code resp)%Z with true by (symmetry; apply Z.leb_le; lia).
    reflexivity.
  - intros kvs Hs Hj. replace (400 <=? status_code resp)%Z with false by (symmetry; apply Z.leb_gt; lia).
    rewrite Hj. reflexivity.
Qed.

(** Extra: with both credentials set, [create_connect_token] sends one
    request, the POST to /connect_token whose payload carries the
    credentials and [userId]; a status [>= 400] raises the connect-token
    error with that status and text; otherwise the parsed body is returned
    whatever its shape, and a body that is not JSON raises. *)
Theorem create_connect_token_outcomes net cfg user_id log resp :
  creds_set cfg = true ->
  net (length log) (connect_request cfg user_id) = Some resp ->
  snd (create_connect_token net cfg user_id log) = (log ++ [connect_request cfg user_id])%list /\
  req_json (connect_request cfg user_id)
    = Some (JObj [("clientId", env_json (PLUGGY_CLIENT_ID cfg));
                  ("clientSecret", env_json (PLUGGY_CLIENT_SECRET cfg));
                  ("userId", JStr user_id)]) /\
  ((400 <= status_code resp)%Z ->
     fst (create_connect_token net cfg user_id log)
       = RErr (RuntimeError (MsgConnectTokenFailed (status_code resp) (resp_text resp)))) /\
  ((status_code resp < 400)%Z ->
     fst (create_connect_token net cfg user_id log)
       = match resp_json resp with Some j => ROk j | None => RErr JSONDecodeError end).
Proof.
  intros Hc Hn. rewrite (create_connect_token_set net cfg user_id log Hc), Hn. cbn [fst snd].
  split; [reflexivity|]. split; [reflexivity|]. split.
  - intros Hs. replace (400 <=? status_code resp)%Z with true by (symmetry; apply Z.leb_le; lia).
    reflexivity.
  - intros Hs. replace (400 <=? status_code resp)%Z with false by (symmetry; apply Z.leb_gt; lia).
    reflexivity.
Qed.

(** Extra: POST /pluggy/connect-token turns every exception of
    [create_connect_token] into HTTP 500 carrying it, with no further
    request; an upstream payload that is not a dictionary also gives
    HTTP 500 ([.get] raises [AttributeError]). *)
Theorem api_create_connect_token_errors net cfg user_id log :
  (forall e, fst (create_connect_token net cfg user_id log) = RErr e ->
     api_create_connect_token net cfg user_id log
       = (RErr (HTTPException 500 e), snd (create_connect_token net cfg user_id log))) /\
  (forall j, fst (create_connect_token net cfg user_id log) = ROk j -> (forall kvs, j <> JObj kvs) ->
     fst (api_create_connect_token net cfg user_id log) = RErr (HTTPException 500 AttributeError)).
Proof.
  unfold api_create_connect_token, try_except, bind, get_m, raise.
  destruct (create_connect_token net cfg user_id log) as [r l]. cbn [fst snd].
  split.
  - intros e ->. reflexivity.
  - intros j -> Hj. destruct j; try reflexivity. exfalso. exact (Hj kvs eq_refl).
Qed.

(** Extra: every run of [fetch_accounts_by_item] (resp.
    [fetch_transactions_by_item]) sends no request when a credential is
    unset, otherwise one authentication request and then only GET requests
    to /accounts (resp. /transactions) carrying the token it returned, with
    timeout 30 (resp. 60), [itemId] and [pageSize] 100 (resp. 500); the
    first page request has no cursor and every later one carries the
    [nextCursor] of the answer to the previous one. *)
Theorem fetch_by_item_request_log net cfg fuel item_id log :
  (forall r log', fetch_accounts_by_item net cfg fuel item_id log = (r, log') ->
     fetch_log net cfg log (PLUGGY_BASE_URL ++ "/accounts") 30
       [("itemId", JStr item_id); ("pageSize", JNum 100)] log') /\
  (forall r log', fetch_transactions_by_item net cfg fuel item_id log = (r, log') ->
     fetch_log net cfg log (PLUGGY_BASE_URL ++ "/transactions") 60
       [("itemId", JStr item_id); ("pageSize", JNum 500)] log').
Proof.
  split; intros r log'; [apply fetch_accounts_log|apply fetch_transactions_log].
Qed.

(** ** Composition of the endpoints *)

Lemma fetch_with_headers_ok net cfg fuel url t err params log x log' :
  dict_get "cursor" params = None ->
  bind (get_pluggy_headers net cfg) (fun h => fetch_loop net fuel url h t err params [] JNull) log
    = (ROk x, log') ->
  exists tok pages,
    get_pluggy_access_token net cfg log = (ROk tok, (log ++ [auth_request cfg])%list) /\
    log' = (log ++ auth_request cfg :: pages)%list /\
    page_requests net (S (length log)) url tok t params pages.
Proof.
  intros Hnc Hrun.
  destruct (fetch_with_headers_log net cfg fuel url t err params log _ _ Hnc Hrun)
    as [[Hc _]|[[_ [e [He _]]]|[_ [tok [pages [Ha [Hl [Hp _]]]]]]]].
  - unfold get_pluggy_headers, bind in Hrun.
    rewrite (get_pluggy_access_token_unset net cfg log Hc) in Hrun. discriminate.
  - unfold get_pluggy_headers, bind in Hrun.
    destruct (get_pluggy_access_token net cfg log) as [ra la]. cbn in He. subst ra. discriminate.
  - eauto.
Qed.

Lemma get_snapshot_ok_runs p net cfg fuel user_id item_id log snap log' :
  get_snapshot p net cfg fuel user_id item_id log = (ROk snap, log') ->
  exists accounts transactions log1 saldo e s,
    fetch_accounts_by_item net cfg fuel item_id log = (ROk accounts, log1) /\
    sum_balances p accounts = ROk saldo /\
    fetch_transactions_by_item net cfg fuel item_id log1 = (ROk transactions, log') /\
    flow_totals p transactions = ROk (e, s) /\
    snap = snapshot_json user_id item_id saldo e s accounts transactions.
Proof.
  unfold get_snapshot, try_except, bind, lift, raise, ret.
  destruct (fetch_accounts_by_item net cfg fuel item_id log) as [[accounts|e|] l1] eqn:Ha; cbn;
    try discriminate.
  destruct (sum_balances p accounts) as [saldo|e|] eqn:Hs; cbn; try discriminate.
  destruct (fetch_transactions_by_item net cfg fuel item_id l1) as [[transactions|e|] l2] eqn:Ht;
    cbn; try discriminate.
  destruct (flow_totals p transactions) as [[e s]|e|] eqn:Hf; cbn; try discriminate.
  intros H. injection H as <- <-. exists accounts, transactions, l1, saldo, e, s. auto.
Qed.

Lemma bind_headers_ok {A} net cfg log tok log1 (f : json -> M A) :
  get_pluggy_access_token net cfg log = (ROk tok, log1) ->
  bind (get_pluggy_headers net cfg) f log = f tok log1.
Proof. intros H. unfold get_pluggy_headers, bind, ret. rewrite H. reflexivity. Qed.

Lemma fetch_first_page net cfg fuel url t err params log tok resp :
  get_pluggy_access_token net cfg log = (ROk tok, (log ++ [auth_request cfg])%list) ->
  (forall q, net (S (length log)) q = Some resp) ->
  (status_code resp < 400)%Z ->
  let r := fst (bind (get_pluggy_headers net cfg)
                  (fun h => fetch_loop net (S fuel) url h t err params [] JNull) log) in
  (resp_json resp = None -> r = RErr JSONDecodeError) /\
  (forall j, resp_json resp = Some j -> (forall kvs, j <> JObj kvs) -> r = RErr AttributeError) /\
  (forall kvs, resp_json resp = Some (JObj kvs) ->
     truthy (dict_get_default kvs "nextCursor" JNull) = false ->
     r = py_iter (dict_get_default kvs "results" (JList []))).
Proof.
  intros Ha Hn Hs r. unfold r. rewrite (bind_headers_ok _ _ _ _ _ _ Ha).
  destruct resp as [sc rj rt] eqn:Er. cbn [resp_json status_code] in *.
  split; [|split]; [intros Hj|intros j Hj Hno|intros kvs Hj Hc];
    cbn [fetch_loop truthy]; unfold send, bind, resp_json_m, get_m, lift, raise, ret;
    rewrite length_app, Nat.add_1_r, Hn, <- Er;
    replace (400 <=? status_code resp)%Z with false
      by (subst resp; symmetry; apply Z.leb_gt; cbn; lia);
    subst resp; cbn [resp_json]; rewrite Hj.
  - reflexivity.
  - destruct j as [|b|q|s|l|kvs]; try reflexivity. exfalso. exact (Hno kvs eq_refl).
  - cbn. destruct (py_iter (dict_get_default kvs "results" (JList []))); cbn; try reflexivity.
    rewrite Hc. reflexivity.
Qed.

(** Extra: a snapshot that [get_snapshot] answers is built from one run of
    [fetch_accounts_by_item] on the incoming request log, the balance sum of
    the accounts it returned, then one run of [fetch_transactions_by_item]
    started on the log the first fetch left, and the flow totals of the
    transactions it returned. *)
Theorem get_snapshot_composition p net cfg fuel user_id item_id log snap log' :
  get_snapshot p net cfg fuel user_id item_id log = (ROk snap, log') ->
  exists accounts transactions log1 saldo e s,
    fetch_accounts_by_item net cfg fuel item_id log = (ROk accounts, log1) /\
    fetch_transactions_by_item net cfg fuel item_id log1 = (ROk transactions, log') /\
    sum_balances p accounts = ROk saldo /\
    flow_totals p transactions = ROk (e, s) /\
    snap = snapshot_json user_id item_id saldo e s accounts transactions.
Proof.
  intros H.
  destruct (get_snapshot_ok_runs p net cfg fuel user_id item_id log snap log' H)
    as [accounts [transactions [log1 [saldo [e [s [Ha [Hs [Ht [Hf ->]]]]]]]]]].
  exists accounts, transactions, log1, saldo, e, s. auto.
Qed.

(** Extra: the token is not cached: a successful snapshot authenticates
    twice, once before the account pages and once before the transaction
    pages, and every page request is a GET to /accounts (resp.
    /transactions) with the token of the authentication just before it. *)
Theorem get_snapshot_request_log p net cfg fuel user_id item_id log snap log' :
  get_snapshot p net cfg fuel user_id item_id log = (ROk snap, log') ->
  exists tok1 tok2 pages1 pages2,
    log' = (log ++ auth_request cfg :: pages1 ++ auth_request cfg :: pages2)%list /\
    get_pluggy_access_token net cfg log = (ROk tok1, (log ++ [auth_request cfg])%list) /\
    get_pluggy_access_token net cfg (log ++ auth_request cfg :: pages1)%list
      = (ROk tok2, ((log ++ auth_request cfg :: pages1) ++ [auth_request cfg])%list) /\
    page_requests net (S (length log)) (PLUGGY_BASE_URL ++ "/accounts") tok1 30
      [("itemId", JStr item_id); ("pageSize", JNum 100)] pages1 /\
    page_requests net (S (length (log ++ auth_request cfg :: pages1)))
      (PLUGGY_BASE_URL ++ "/transactions") tok2 60
      [("itemId", JStr item_id); ("pageSize", JNum 500)] pages2.
Proof.
  intros H.
  destruct (get_snapshot_ok_runs p net cfg fuel user_id item_id log snap log' H)
    as [accounts [transactions [log1 [saldo [e [s [Ha [Hs [Ht [Hf _]]]]]]]]]].
  destruct (fetch_with_headers_ok net cfg fuel (PLUGGY_BASE_URL ++ "/accounts") 30 MsgListAccounts
              [("itemId", JStr item_id); ("pageSize", JNum 100)] log accounts log1 eq_refl Ha)
    as [tok1 [pages1 [Hauth1 [-> Hp1]]]].
  destruct (fetch_with_headers_ok net cfg fuel (PLUGGY_BASE_URL ++ "/transactions") 60
              MsgListTransactions [("itemId", JStr item_id); ("pageSize", JNum 500)]
              _ transactions log' eq_refl Ht)
    as [tok2 [pages2 [Hauth2 [-> Hp2]]]].
  exists tok1, tok2, pages1, pages2.
  split; [rewrite <- app_assoc; reflexivity|].
  exact (conj Hauth1 (conj Hauth2 (conj Hp1 Hp2))).
Qed.

(** Extra: every failure inside [get_snapshot] becomes HTTP 500 carrying
    the exception, and the steps after it are not run: a failed account
    fetch or an account balance that cannot be converted stops before any
    transaction request; a failed transaction fetch or an amount that
    cannot be converted answers with the log the transaction fetch left. *)
Theorem get_snapshot_errors p net cfg fuel user_id item_id log :
  (forall e l1, fetch_accounts_by_item net cfg fuel item_id log = (RErr e, l1) ->
     get_snapshot p net cfg fuel user_id item_id log = (RErr (HTTPException 500 e), l1)) /\
  (forall accounts l1 e, fetch_accounts_by_item net cfg fuel item_id log = (ROk accounts, l1) ->
     sum_balances p accounts = RErr e ->
     get_snapshot p net cfg fuel user_id item_id log = (RErr (HTTPException 500 e), l1)) /\
  (forall accounts l1 saldo e l2,
     fetch_accounts_by_item net cfg fuel item_id log = (ROk accounts, l1) ->
     sum_balances p accounts = ROk saldo ->
     fetch_transactions_by_item net cfg fuel item_id l1 = (RErr e, l2) ->
     get_snapshot p net cfg fuel user_id item_id log = (RErr (HTTPException 500 e), l2)) /\
  (forall accounts l1 saldo transactions l2 e,
     fetch_accounts_by_item net cfg fuel item_id log = (ROk accounts, l1) ->
     sum_balances p accounts = ROk saldo ->
     fetch_transactions_by_item net cfg fuel item_id l1 = (ROk transactions, l2) ->
     flow_totals p transactions = RErr e ->
     get_snapshot p net cfg fuel user_id item_id log = (RErr (HTTPException 500 e), l2)).
Proof.
  unfold get_snapshot, try_except, bind, lift, raise, ret.
  repeat split.
  - intros e l1 ->. reflexivity.
  - intros accounts l1 e -> ->. reflexivity.
  - intros accounts l1 saldo e l2 -> -> ->. reflexivity.
  - intros accounts l1 saldo transactions l2 e -> -> -> ->. reflexivity.
Qed.

(** Extra: with a credential unset, both endpoints answer HTTP 500 with
    the configuration error and send no request. *)
Theorem endpoints_missing_credentials p net cfg fuel user_id item_id log :
  creds_set cfg = false ->
  get_snapshot p net cfg fuel user_id item_id log
    = (RErr (HTTPException 500 (RuntimeError MsgNotConfigured)), log) /\
  api_create_connect_token net cfg user_id log
    = (RErr (HTTPException 500 (RuntimeError MsgNotConfigured)), log).
Proof.
  intros Hc. split.
  - unfold get_snapshot, fetch_accounts_by_item, get_pluggy_headers, try_except, bind.
    rewrite (get_pluggy_access_token_unset net cfg log Hc). reflexivity.
  - unfold creds_set in Hc.
    unfold api_create_connect_token, create_connect_token, try_except, bind, raise.
    destruct (env_truthy (PLUGGY_CLIENT_ID cfg)), (env_truthy (PLUGGY_CLIENT_SECRET cfg));
      try discriminate; reflexivity.
Qed.

(** Extra: once authenticated, a first page answered with status below 400
    but a body that is not JSON makes both fetches raise
    [JSONDecodeError]; a JSON body that is not a dictionary makes them raise
    [AttributeError]; a dictionary without a truthy [nextCursor] ends them
    with the items of its [results] ([[]] when the key is missing, and
    [TypeError] when it is not iterable). *)
Theorem fetch_first_page_edge net cfg fuel item_id log tok resp :
  get_pluggy_access_token net cfg log = (ROk tok, (log ++ [auth_request cfg])%list) ->
  (forall q, net (S (length log)) q = Some resp) ->
  (status_code resp < 400)%Z ->
  (resp_json resp = None ->
     fst (fetch_accounts_by_item net cfg (S fuel) item_id log) = RErr JSONDecodeError /\
     fst (fetch_transactions_by_item net cfg (S fuel) item_id log) = RErr JSONDecodeError) /\
  (forall j, resp_json resp = Some j -> (forall kvs, j <> JObj kvs) ->
     fst (fetch_accounts_by_item net cfg (S fuel) item_id log) = RErr AttributeError /\
     fst (fetch_transactions_by_item net cfg (S fuel) item_id log) = RErr AttributeError) /\
  (forall kvs, resp_json resp = Some (JObj kvs) ->
     truthy (dict_get_default kvs "nextCursor" JNull) = false ->
     fst (fetch_accounts_by_item net cfg (S fuel) item_id log)
       = py_iter (dict_get_default kvs "results" (JList [])) /\
     fst (fetch_transactions_by_item net cfg (S fuel) item_id log)
       = py_iter (dict_get_default kvs "results" (JList [])) /\
     (dict_get "results" kvs = None ->
        fst (fetch_accounts_by_item net cfg (S fuel) item_id log) = ROk [] /\
        fst (fetch_transactions_by_item net cfg (S fuel) item_id log) = ROk [])).
Proof.
  intros Ha Hn Hs.
  destruct (fetch_first_page net cfg fuel (PLUGGY_BASE_URL ++ "/accounts") 30 MsgListAccounts
              [("itemId", JStr item_id); ("pageSize", JNum 100)] log tok resp Ha Hn Hs)
    as [A1 [A2 A3]].
  destruct (fetch_first_page net cfg fuel (PLUGGY_BASE_URL ++ "/transactions") 60
              MsgListTransactions [("itemId", JStr item_id); ("pageSize", JNum 500)]
              log tok resp Ha Hn Hs)
    as [T1 [T2 T3]].
  split; [|split].
  - intros Hj. exact (conj (A1 Hj) (T1 Hj)).
  - intros j Hj Hno. exact (conj (A2 j Hj Hno) (T2 j Hj Hno)).
  - intros kvs Hj Hc.
    assert (Ea : fst (fetch_accounts_by_item net cfg (S fuel) item_id log)
                 = py_iter (dict_get_default kvs "results" (JList []))) by exact (A3 kvs Hj Hc).
    assert (Et : fst (fetch_transactions_by_item net cfg (S fuel) item_id log)
                 = py_iter (dict_get_default kvs "results" (JList []))) by exact (T3 kvs Hj Hc).
    split; [exact Ea|]. split; [exact Et|].
    intros Hr. rewrite Ea, Et. unfold dict_get_default. rewrite Hr. auto.
Qed.

(** ** Witnesses of the further properties *)

Lemma get_pluggy_access_token_outcomes_witness :
  creds_set demo_cfg = true /\
  two_pages_net 0 (auth_request demo_cfg) = Some auth_resp /\
  snd (get_pluggy_access_token two_pages_net demo_cfg [])
    = ([] ++ [auth_request demo_cfg])%list /\
  ((400 <= status_code auth_resp)%Z ->
     fst (get_pluggy_access_token two_pages_net demo_cfg [])
       = RErr (RuntimeError (MsgAuthFailed (status_code auth_resp) (resp_text auth_resp)))) /\
  (forall kvs, (status_code auth_resp < 400)%Z -> resp_json auth_resp = Some (JObj kvs) ->
     fst (get_pluggy_access_token two_pages_net demo_cfg [])
       = if truthy (dict_get_default kvs "accessToken" JNull)
         then ROk (dict_get_default kvs "accessToken" JNull)
         else RErr (RuntimeError MsgNoAccessToken)).
Proof.
  split; [reflexivity|]. split; [reflexivity|].
  apply (get_pluggy_access_token_outcomes two_pages_net demo_cfg [] auth_resp);
    reflexivity.
Defined.

Lemma create_connect_token_outcomes_witness :
  let resp := mk_resp 201 (Some (JObj [("id", JStr "ct-1")])) "" in
  creds_set demo_cfg = true /\
  connect_net 0 (connect_request demo_cfg "user") = Some resp /\
  snd (create_connect_token connect_net demo_cfg "user" [])
    = ([] ++ [connect_request demo_cfg "user"])%list /\
  req_json (connect_request demo_cfg "user")
    = Some (JObj [("clientId", env_json (PLUGGY_CLIENT_ID demo_cfg));
                  ("clientSecret", env_json (PLUGGY_CLIENT_SECRET demo_cfg));
                  ("userId", JStr "user")]) /\
  ((400 <= status_code resp)%Z ->
     fst (create_connect_token connect_net demo_cfg "user" [])
       = RErr (RuntimeError (MsgConnectTokenFailed (status_code resp) (resp_text resp)))) /\
  ((status_code resp < 400)%Z ->
     fst (create_connect_token connect_net demo_cfg "user" [])
       = match resp_json resp with Some j => ROk j | None => RErr JSONDecodeError end).
Proof.
  intros resp. split; [reflexivity|]. split; [reflexivity|].
  apply (create_connect_token_outcomes connect_net demo_cfg "user" [] resp); reflexivity.
Defined.

Lemma get_snapshot_composition_witness :
  get_snapshot decimal_float_of_string (snapshot_net demo_accounts demo_transactions)
    demo_cfg 1 "u" "i" []
  = (ROk demo_snapshot,
     snd (get_snapshot decimal_float_of_string (snapshot_net demo_accounts demo_transactions)
            demo_cfg 1 "u" "i" [])) /\
  exists accounts transactions log1 saldo e s,
    fetch_accounts_by_item (snapshot_net demo_accounts demo_transactions) demo_cfg 1 "i" []
      = (ROk accounts, log1) /\
    fetch_transactions_by_item (snapshot_net demo_accounts demo_transactions) demo_cfg 1 "i" log1
      = (ROk transactions,
         snd (get_snapshot decimal_float_of_string (snapshot_net demo_accounts demo_transactions)
                demo_cfg 1 "u" "i" [])) /\
    sum_balances decimal_float_of_string accounts = ROk saldo /\
    flow_totals decimal_float_of_string transactions = ROk (e, s) /\
    demo_snapshot = snapshot_json "u" "i" saldo e s accounts transactions.
Proof.
  split; [vm_compute; reflexivity|].
  apply (get_snapshot_composition decimal_float_of_string
           (snapshot_net demo_accounts demo_transactions) demo_cfg 1 "u" "i" []).
  vm_compute. reflexivity.
Defined.

Lemma get_snapshot_request_log_witness :
  get_snapshot decimal_float_of_string (snapshot_net demo_accounts demo_transactions)
    demo_cfg 1 "u" "i" []
  = (ROk demo_snapshot,
     snd (get_snapshot decimal_float_of_string (snapshot_net demo_accounts demo_transactions)
            demo_cfg 1 "u" "i" [])) /\
  exists tok1 tok2 pages1 pages2,
    snd (get_snapshot decimal_float_of_string (snapshot_net demo_accounts demo_transactions)
           demo_cfg 1 "u" "i" [])
      = ([] ++ auth_request demo_cfg :: pages1 ++ auth_request demo_cfg :: pages2)%list /\
    get_pluggy_access_token (snapshot_net demo_accounts demo_transactions) demo_cfg []
      = (ROk tok1, ([] ++ [auth_request demo_cfg])%list) /\
    get_pluggy_access_token (snapshot_net demo_accounts demo_transactions) demo_cfg
      ([] ++ auth_request demo_cfg :: pages1)%list
      = (ROk tok2, (([] ++ auth_request demo_cfg :: pages1) ++ [auth_request demo_cfg])%list) /\
    page_requests (snapshot_net demo_accounts demo_transactions) (S (length (@nil http_req)))
      (PLUGGY_BASE_URL ++ "/accounts") tok1 30
      [("itemId", JStr "i"); ("pageSize", JNum 100)] pages1 /\
    page_requests (snapshot_net demo_accounts demo_transactions)
      (S (length ([] ++ auth_request demo_cfg :: pages1)))
      (PLUGGY_BASE_URL ++ "/transactions") tok2 60
      [("itemId", JStr "i"); ("pageSize", JNum 500)] pages2.
Proof.
  split; [vm_compute; reflexivity|].
  apply (get_snapshot_request_log decimal_float_of_string
           (snapshot_net demo_accounts demo_transactions) demo_cfg 1 "u" "i" [] demo_snapshot).
  vm_compute. reflexivity.
Defined.

Lemma endpoints_missing_credentials_witness :
  creds_set (mk_config None (Some "secret")) = false /\
  get_snapshot decimal_float_of_string two_pages_net (mk_config None (Some "secret")) 1 "u" "i" []
    = (RErr (HTTPException 500 (RuntimeError MsgNotConfigured)), []) /\
  api_create_connect_token two_pages_net (mk_config None (Some "secret")) "u" []
    = (RErr (HTTPException 500 (RuntimeError MsgNotConfigured)), []).
Proof.
  split; [reflexivity|].
  apply (endpoints_missing_credentials decimal_float_of_string two_pages_net
           (mk_config None (Some "secret")) 1 "u" "i" []).
  reflexivity.
Defined.

Lemma fetch_first_page_edge_witness :
  get_pluggy_access_token (edge_net no_results_resp) demo_cfg []
    = (ROk (JStr "tok"), ([] ++ [auth_request demo_cfg])%list) /\
  (forall q, edge_net no_results_resp 1 q = Some no_results_resp) /\
  (status_code no_results_resp < 400)%Z /\
  (resp_json no_results_resp = None ->
     fst (fetch_accounts_by_item (edge_net no_results_resp) demo_cfg 1 "i" []) = RErr JSONDecodeError /\
     fst (fetch_transactions_by_item (edge_net no_results_resp) demo_cfg 1 "i" [])
       = RErr JSONDecodeError) /\
  (forall j, resp_json no_results_resp = Some j -> (forall kvs, j <> JObj kvs) ->
     fst (fetch_accounts_by_item (edge_net no_results_resp) demo_cfg 1 "i" []) = RErr AttributeError /\
     fst (fetch_transactions_by_item (edge_net no_results_resp) demo_cfg 1 "i" [])
       = RErr AttributeError) /\
  (forall kvs, resp_json no_results_resp = Some (JObj kvs) ->
     truthy (dict_get_default kvs "nextCursor" JNull) = false ->
     fst (fetch_accounts_by_item (edge_net no_results_resp) demo_cfg 1 "i" [])
       = py_iter (dict_get_default kvs "results" (JList [])) /\
     fst (fetch_transactions_by_item (edge_net no_results_resp) demo_cfg 1 "i" [])
       = py_iter (dict_get_default kvs "results" (JList [])) /\
     (dict_get "results" kvs = None ->
        fst (fetch_accounts_by_item (edge_net no_results_resp) demo_cfg 1 "i" []) = ROk [] /\
        fst (fetch_transactions_by_item (edge_net no_results_resp) demo_cfg 1 "i" []) = ROk [])).
Proof.
  split; [vm_compute; reflexivity|]. split; [intros q; reflexivity|]. split; [reflexivity|].
  apply (fetch_first_page_edge (edge_net no_results_resp) demo_cfg 0 "i" [] (JStr "tok")
           no_results_resp).
  - vm_compute. reflexivity.
  - intros q. reflexivity.
  - reflexivity.
Defined.
